(** * SignalJob: rolling-mean trading signal (src/run.py)

    A shallow embedding of [run.py] and the properties of its pipeline:
    config loader, data loader, rolling mean, signal, metrics and the
    success / error reports.

    Modelling conventions.
    - A float64 cell of a pandas column is a [cell]: either [NaN] or an exact
      rational [Val q]; infinities are left out.  The conversion of an int64
      column to float64 is modelled ([float64_of_Z]); the rounding of float64
      sums and quotients and of [round(x, 4)] is not: every value the
      pipeline computes is kept exact, in lowest terms ([Qred]).  A property
      of a computed value is therefore stated either for inputs on which the
      float64 computation is exact, or with a tolerance that covers its
      rounding (2^-53 for a quotient in [0, 1]), or it does not depend on the
      rounding at all.
    - The pandas / numpy / yaml calls of [run.py] are modelled after the
      documented behaviour of these libraries; each definition names the
      call it stands for.
    - Reading a file is a query on an environment [Env]; the output file,
      the log file and standard output are components of an explicit
      state threaded through [main].  Opening the output file and the log
      file for writing is taken to succeed. *)

From Stdlib Require Import QArith Qround Lqa.
From stdpp Require Import gmap strings list fin_maps.

Set Warnings "-register-all".

Local Open Scope Z_scope.
Local Open Scope Q_scope.
Local Open Scope nat_scope.

(** ** Numeric cells *)

Module Num.

(** One float64 entry of a column. *)
Inductive cell : Type :=
  | NaN
  | Val (q : Q).

Definition cell_val (c : cell) : option Q :=
  match c with NaN => None | Val q => Some q end.

(** [a > b] on float64: any comparison with NaN is false. *)
Definition gt (a b : cell) : bool :=
  match a, b with
  | Val p, Val q => negb (Qle_bool p q)
  | _, _ => false
  end.

Fixpoint Qsum (l : list Q) : Q :=
  match l with
  | [] => 0%Q
  | x :: r => (x + Qsum r)%Q
  end.

Definition Qnat (n : nat) : Q := inject_Z (Z.of_nat n).

(** Quotient of a sum by a count, in lowest terms. *)
Definition Qmean (s : Q) (n : nat) : Q := Qred (s / Qnat n).

End Num.
Export Num.

(** ** Transform: rolling mean and signal (run.py lines 86 and 90) *)

Module Transform.

(** Bounds of the fixed window ending at row [i]: pandas takes
    [end = i + 1] and [start = max (end - window) 0]. *)
Definition window_bounds (w i : nat) : nat * nat := (S i - w, S i).

(** The rows of [xs] inside the window ending at row [i]. *)
Definition window_at (w i : nat) (xs : list cell) : list cell :=
  let '(s, e) := window_bounds w i in take (e - s) (drop s xs).

(** The non-NaN observations of a window. *)
Definition observations (win : list cell) : list Q := omap cell_val win.

(** Mean of one window: NaN unless there are at least [minp] observations
    (and at least one); otherwise the sum of the observations over their
    number. *)
Definition roll_mean (minp : nat) (win : list cell) : cell :=
  let obs := observations win in
  let nobs := length obs in
  if (minp <=? nobs) && (0 <? nobs) then Val (Qmean (Qsum obs) nobs) else NaN.

(** [close.rolling(window=w).mean()]: [min_periods] defaults to the window
    size. *)
Definition rolling_mean (w : nat) (close : list cell) : list cell :=
  map (fun i => roll_mean w (window_at w i close)) (seq 0 (length close)).

(** [np.where(close > rolling_mean, 1, 0)]: an integer array. *)
Definition signal (close rm : list cell) : list Z :=
  zip_with (fun c m => if gt c m then 1%Z else 0%Z) close rm.

Fixpoint Zsum (l : list Z) : Z :=
  match l with
  | [] => 0%Z
  | x :: r => (x + Zsum r)%Z
  end.

(** [float(series.mean())] of an integer series: NaN on an empty series. *)
Definition int_mean (l : list Z) : cell :=
  match l with
  | [] => NaN
  | _ => Val (Qmean (inject_Z (Zsum l)) (length l))
  end.

(** Python's [round(x, 4)], applied to the exact value: the nearest
    multiple of 1/10000, ties to the even multiple. *)
Definition round_half_even (q : Q) : Z :=
  let f := Qfloor q in
  let r := (q - inject_Z f)%Q in
  match (r ?= 1 # 2)%Q with
  | Lt => f
  | Gt => (f + 1)%Z
  | Eq => if Z.even f then f else (f + 1)%Z
  end.

Definition round4 (c : cell) : cell :=
  match c with
  | NaN => NaN
  | Val q => Val (Qred (inject_Z (round_half_even (q * inject_Z 10000)) / inject_Z 10000))
  end.

End Transform.
Export Transform.

(** ** Slices of a column *)

Module Spec.


End Spec.
Export Spec.

(** ** Python values, exceptions and the result monad *)

Module Py.

(** The exception classes the pipeline can meet (all subclasses of
    [Exception]). *)
Inductive exn_class : Type :=
  | FileNotFoundError | OSError | YAMLError | ValueError | TypeError
  | KeyError | DataError | OverflowError | ParserError.

(** An instance of an [Exception] subclass; [str(e)] is its message. *)
Record error : Type := Error { err_class : exn_class; err_msg : string }.

Definition str (e : error) : string := err_msg e.

Inductive result (A : Type) : Type :=
  | Ok (a : A)
  | Raise (e : error).
Arguments Ok {A} a.
Arguments Raise {A} e.

#[export] Instance result_ret : MRet result := fun A a => Ok a.
#[export] Instance result_bind : MBind result := fun A B f m =>
  match m with
  | Ok a => f a
  | Raise e => Raise e
  end.

(** A value produced by [yaml.safe_load]: the core schema and timestamps
    (which are not JSON serialisable).  Mapping keys are strings. *)
Inductive yaml : Type :=
  | YNull
  | YBool (b : bool)
  | YInt (z : Z)
  | YFloat (x : cell)
  | YStr (s : string)
  | YSeq (l : list yaml)
  | YMap (m : list (string * yaml))
  | YTimestamp (s : string).

(** [type(v).__name__] *)
Definition type_name (v : yaml) : string :=
  match v with
  | YNull => "NoneType"
  | YBool _ => "bool"
  | YInt _ => "int"
  | YFloat _ => "float"
  | YStr _ => "str"
  | YSeq _ => "list"
  | YMap _ => "dict"
  | YTimestamp _ => "datetime.date"
  end.

Fixpoint is_substring (k s : string) : bool :=
  String.prefix k s ||
  match s with
  | EmptyString => false
  | String _ s' => is_substring k s'
  end.

Definition is_str (key : string) (v : yaml) : bool :=
  match v with
  | YStr s => bool_decide (s = key)
  | _ => false
  end.

Fixpoint assoc (key : string) (m : list (string * yaml)) : option yaml :=
  match m with
  | [] => None
  | (k, v) :: r => if bool_decide (k = key) then Some v else assoc key r
  end.

(** [key in c] for a string [key]. *)
Definition contains (key : string) (c : yaml) : result bool :=
  match c with
  | YMap m => Ok (bool_decide (is_Some (assoc key m)))
  | YSeq l => Ok (existsb (is_str key) l)
  | YStr s => Ok (is_substring key s)
  | _ => Raise (Error TypeError
        ("argument of type '" +:+ type_name c +:+ "' is not iterable"))
  end.

(** [c[key]] for a string [key]. *)
Definition getitem (c : yaml) (key : string) : result yaml :=
  match c with
  | YMap m =>
      match assoc key m with
      | Some v => Ok v
      | None => Raise (Error KeyError key)
      end
  | YSeq _ => Raise (Error TypeError "list indices must be integers or slices, not str")
  | YStr _ => Raise (Error TypeError "string indices must be integers, not 'str'")
  | _ => Raise (Error TypeError
        ("'" +:+ type_name c +:+ "' object is not subscriptable"))
  end.

(** Whether [json.dump] accepts the value. *)
Fixpoint json_ok (v : yaml) : bool :=
  match v with
  | YTimestamp _ => false
  | YSeq l => forallb json_ok l
  | YMap m => forallb (fun kv => json_ok (snd kv)) m
  | _ => true
  end.

Definition seed_in_range (z : Z) : bool := (0 <=? z)%Z && (z <? 2 ^ 32)%Z.

Definition is_seed_int (v : yaml) : bool :=
  match v with
  | YInt z => seed_in_range z
  | YBool _ => true
  | _ => false
  end.

(** [np.random.seed(seed)]: accepts None, an integer of [0, 2**32) and a
    non-empty sequence of such integers. *)
Definition np_random_seed (seed : yaml) : result unit :=
  match seed with
  | YNull => Ok ()
  | YInt z =>
      if seed_in_range z then Ok ()
      else Raise (Error ValueError "Seed must be between 0 and 2**32 - 1")
  | YBool _ => Ok ()
  | YSeq l =>
      if negb (bool_decide (l = [])) && forallb is_seed_int l then Ok ()
      else Raise (Error ValueError "Seed must be a non-empty array of integers between 0 and 2**32 - 1")
  | _ => Raise (Error TypeError "Cannot cast scalar to int64")
  end.

End Py.
Export Py.

(** ** Tables *)

Module Pandas.

(** A column of a DataFrame with its dtype: float64, int64 (a bool column
    behaves as a 0/1 integer column) or object.  An object column stands
    for a column of text that pandas cannot convert to float64. *)
Inductive column : Type :=
  | FloatCol (l : list cell)
  | IntCol (l : list Z)
  | ObjCol (l : list string).

Definition col_len (c : column) : nat :=
  match c with
  | FloatCol l => length l
  | IntCol l => length l
  | ObjCol l => length l
  end.

(** A DataFrame: the length of its index and its columns by name. *)
Record DataFrame : Type := mkDF { nrows : nat; cols : gmap string column }.

(** [len(df)] *)
Definition len (df : DataFrame) : nat := nrows df.

(** [df.empty]: some axis has length 0. *)
Definition empty (df : DataFrame) : bool :=
  (nrows df =? 0) || bool_decide (cols df = ∅).

(** [name in df.columns] *)
Definition has_column (name : string) (df : DataFrame) : bool :=
  bool_decide (is_Some (cols df !! name)).

(** [df[name]] *)
Definition get_column (df : DataFrame) (name : string) : result column :=
  match cols df !! name with
  | Some c => Ok c
  | None => Raise (Error KeyError name)
  end.

(** [df[name] = c] *)
Definition set_column (df : DataFrame) (name : string) (c : column) : DataFrame :=
  mkDF (nrows df) (<[name := c]> (cols df)).

(** What [pd.read_csv] returns: at least one column, and every column has
    one entry per row. *)
Definition parsed_table (df : DataFrame) : bool :=
  negb (bool_decide (cols df = ∅)) &&
  bool_decide (map_Forall (fun _ c => col_len c = nrows df) (cols df)).

(** The int64 to float64 cast: the nearest number with a 53-bit
    significand, ties to the even significand. *)
Definition float64_of_Z (z : Z) : Z :=
  let a := Z.abs z in
  if (a <? 2 ^ 53)%Z then z
  else
    let unit := (2 ^ (Z.log2 a - 52))%Z in
    let q := (a / unit)%Z in
    let r := (a mod unit)%Z in
    let q' :=
      if (unit <? 2 * r)%Z then (q + 1)%Z
      else if (2 * r =? unit)%Z && Z.odd q then (q + 1)%Z
      else q in
    (Z.sgn z * (q' * unit))%Z.

(** The float64 values of a column; an object column has none. *)
Definition as_float (c : column) : result (list cell) :=
  match c with
  | FloatCol l => Ok l
  | IntCol l => Ok (map (fun z => Val (inject_Z (float64_of_Z z))) l)
  | ObjCol _ => Raise (Error DataError "No numeric types to aggregate")
  end.

(** [Series.rolling(window=window)] validates its argument: an integer
    that is 0 or greater (and fits an int64). *)
Definition rolling_window (window : yaml) : result nat :=
  match window with
  | YInt z =>
      if (z <? 0)%Z then
        Raise (Error ValueError "window must be an integer 0 or greater")
      else if (2 ^ 63 <=? z)%Z then
        Raise (Error OverflowError "Python int too large to convert to C long")
      else Ok (Z.to_nat z)
  | _ => Raise (Error ValueError "window must be an integer 0 or greater")
  end.

(** [series.rolling(window=window).mean()] *)
Definition rolling_mean_column (c : column) (window : yaml) : result column :=
  w ← rolling_window window;
  xs ← as_float c;
  mret (FloatCol (rolling_mean w xs)).

(** [np.where(a > b, 1, 0)] on two columns. *)
Definition where_gt (a b : column) : result column :=
  xs ← as_float a;
  ys ← as_float b;
  mret (IntCol (signal xs ys)).

(** [float(series.mean())] *)
Definition mean_column (c : column) : result cell :=
  match c with
  | IntCol l => Ok (int_mean l)
  | FloatCol l => Ok (roll_mean 0 l)
  | ObjCol _ => Raise (Error TypeError "Could not convert to numeric")
  end.

End Pandas.
Export Pandas.

(** ** The files the job reads *)

Record Env : Type := {
  (** [os.path.exists(path)] *)
  path_exists : string -> bool;
  (** [open(path)] followed by [yaml.safe_load] *)
  yaml_safe_load : string -> result yaml;
  (** [pd.read_csv(path)] *)
  read_csv : string -> result DataFrame
}.

(** ** load_config and load_data (run.py lines 12-46) *)

Definition required_keys : list string := ["seed"; "window"; "version"].

(** The loop over [required_keys]. *)
Fixpoint check_keys (keys : list string) (config : yaml) : result unit :=
  match keys with
  | [] => Ok ()
  | key :: rest =>
      present ← contains key config;
      if negb present then
        Raise (Error ValueError ("Missing required config field: " +:+ key))
      else check_keys rest config
  end.

Definition load_config (env : Env) (config_path : string) : result yaml :=
  if negb (path_exists env config_path) then
    Raise (Error FileNotFoundError "Configuration file not found.")
  else
    config ← yaml_safe_load env config_path;
    _ ← check_keys required_keys config;
    mret config.

Definition load_data (env : Env) (input_path : string) : result DataFrame :=
  if negb (path_exists env input_path) then
    Raise (Error FileNotFoundError "Input CSV file not found.")
  else
    match read_csv env input_path with
    | Raise _ => Raise (Error ValueError "Invalid CSV file format.")
    | Ok df =>
        if empty df then Raise (Error ValueError "Input CSV file is empty.")
        else if negb (has_column "close" df) then
          Raise (Error ValueError "Required column 'close' is missing.")
        else Ok df
    end.

(** ** The job (run.py, [main]) *)

Module Job.

(** The four paths given on the command line. *)
Record Args : Type := {
  input : string;
  config : string;
  output : string;
  log_file : string
}.

(** The [metrics] dict, in its field order. *)
Record MetricsResult : Type := {
  version : yaml;
  rows_processed : nat;
  metric : string;
  value : cell;
  latency_ms : Z;
  seed : yaml;
  status : string
}.

(** The [error_output] dict. *)
Record ErrorResult : Type := {
  err_version : string;
  err_status : string;
  error_message : string
}.

(** A JSON document the job emits. *)
Inductive document : Type :=
  | SuccessDoc (m : MetricsResult)
  | ErrorDoc (e : ErrorResult).

(** The content of the output file once opened for writing: a complete
    document, or what an interrupted [json.dump] left behind. *)
Inductive file_content : Type :=
  | Partial
  | Complete (d : document).

(** The lines of the log file, by milestone. *)
Inductive log_event : Type :=
  | LogJobStarted
  | LogConfigLoaded (seed window version : yaml)
  | LogDataLoaded (rows : nat)
  | LogRollingMean (window : yaml)
  | LogSignals
  | LogMetrics (signal_rate : cell) (rows : nat)
  | LogCompleted (latency : Z)
  | LogError (msg : string).

(** What the job writes: the log, the output file ([None]: not opened by
    this run) and standard output. *)
Record State : Type := mkState {
  log : list log_event;
  out_file : option file_content;
  stdout : list document
}.

(** How a block of statements ends: normally, by an exception, or by
    [SystemExit] (which [except Exception] does not catch). *)
Inductive outcome (A : Type) : Type :=
  | Ret (a : A)
  | Raised (e : error)
  | Exited (code : Z).
Arguments Ret {A} a.
Arguments Raised {A} e.
Arguments Exited {A} code.

Definition M (A : Type) : Type := State -> outcome A * State.

#[export] Instance M_ret : MRet M := fun A a st => (Ret a, st).
#[export] Instance M_bind : MBind M := fun A B f m st =>
  match m st with
  | (Ret a, st') => f a st'
  | (Raised e, st') => (Raised e, st')
  | (Exited c, st') => (Exited c, st')
  end.

Definition lift {A : Type} (r : result A) : M A := fun st =>
  match r with
  | Ok a => (Ret a, st)
  | Raise e => (Raised e, st)
  end.

(** [logging.info] / [logging.error] *)
Definition logging (ev : log_event) : M unit := fun st =>
  (Ret (), mkState (log st ++ [ev]) (out_file st) (stdout st)).

(** [open(args.output, "w")] *)
Definition open_output : M unit := fun st =>
  (Ret (), mkState (log st) (Some Partial) (stdout st)).

Definition serialisable (d : document) : bool :=
  match d with
  | SuccessDoc m => json_ok (version m) && json_ok (seed m)
  | ErrorDoc _ => true
  end.

(** [json.dump(d, f, indent=4)] and the end of the [with] block. *)
Definition json_dump (d : document) : M unit := fun st =>
  if serialisable d then
    (Ret (), mkState (log st) (Some (Complete d)) (stdout st))
  else (Raised (Error TypeError "Object is not JSON serializable"), st).

(** [print(json.dumps(d, indent=4))] *)
Definition print_json (d : document) : M unit := fun st =>
  if serialisable d then
    (Ret (), mkState (log st) (out_file st) (stdout st ++ [d]))
  else (Raised (Error TypeError "Object is not JSON serializable"), st).

(** [sys.exit(code)] *)
Definition sys_exit (code : Z) : M unit := fun st => (Exited code, st).

(** [int(x)]: truncation towards zero. *)
Definition py_int (q : Q) : Z := Z.quot (Qnum q) (Zpos (Qden q)).

(** The body of the [try] statement.  [start_time] and [now] are the two
    readings of [time.time()], in seconds. *)
Definition try_block (env : Env) (args : Args) (start_time now : Q) : M unit :=
  config ← lift (load_config env (config args));
  seed ← lift (getitem config "seed");
  window ← lift (getitem config "window");
  version ← lift (getitem config "version");
  _ ← lift (np_random_seed seed);
  _ ← logging (LogConfigLoaded seed window version);
  df ← lift (load_data env (input args));
  _ ← logging (LogDataLoaded (len df));
  close ← lift (get_column df "close");
  rm ← lift (rolling_mean_column close window);
  let df := set_column df "rolling_mean" rm in
  _ ← logging (LogRollingMean window);
  close ← lift (get_column df "close");
  rm ← lift (get_column df "rolling_mean");
  sig ← lift (where_gt close rm);
  let df := set_column df "signal" sig in
  _ ← logging LogSignals;
  let rows_processed := len df in
  sig ← lift (get_column df "signal");
  signal_rate ← lift (mean_column sig);
  let latency_ms := py_int ((now - start_time) * inject_Z 1000)%Q in
  let metrics :=
    {| version := version;
       rows_processed := rows_processed;
       metric := "signal_rate";
       value := round4 signal_rate;
       latency_ms := latency_ms;
       seed := seed;
       status := "success" |} in
  _ ← open_output;
  _ ← json_dump (SuccessDoc metrics);
  _ ← logging (LogMetrics (round4 signal_rate) rows_processed);
  _ ← logging (LogCompleted latency_ms);
  _ ← print_json (SuccessDoc metrics);
  sys_exit 0.

(** The body of [except Exception as e]. *)
Definition except_block (e : error) : M unit :=
  let error_output :=
    {| err_version := "v1"; err_status := "error"; error_message := str e |} in
  _ ← open_output;
  _ ← json_dump (ErrorDoc error_output);
  _ ← logging (LogError (str e));
  _ ← print_json (ErrorDoc error_output);
  sys_exit 1.

(** Exit status of the process: the code of [SystemExit], 1 for an
    exception nobody caught, 0 when [main] returns. *)
Definition exit_status (o : outcome unit) : Z :=
  match o with
  | Exited c => c
  | Raised _ => 1%Z
  | Ret _ => 0%Z
  end.

(** [main]: the log starts with "Job started"; the result is the exit
    status and everything written. *)
Definition main (env : Env) (args : Args) (start_time now : Q) : Z * State :=
  let st0 := mkState [LogJobStarted] None [] in
  match try_block env args start_time now st0 with
  | (Raised e, st) =>
      let '(o, st') := except_block e st in (exit_status o, st')
  | (o, st) => (exit_status o, st)
  end.

End Job.
Export Job.

(** ** A sample environment *)

Definition sample_args : Args :=
  {| input := "data.csv"; config := "config.yaml";
     output := "metrics.json"; log_file := "run.log" |}.

Definition sample_config (window : yaml) : yaml :=
  YMap [("seed", YInt 42); ("window", window); ("version", YStr "v1")].

Definition sample_table (close : list Z) : DataFrame :=
  mkDF (length close) {[ "close" := IntCol close ]}.

Definition sample_env (cfg : result yaml) (csv : result DataFrame) : Env :=
  {| path_exists := fun p => bool_decide (p = "data.csv") || bool_decide (p = "config.yaml");
     yaml_safe_load := fun _ => cfg;
     read_csv := fun _ => csv |}.


Definition close5 : list cell := [Val 1; Val 2; Val 3; Val 4; Val 5].

Definition close5_env : Env :=
  sample_env (Ok (sample_config (YInt 3))) (Ok (sample_table [1; 2; 3; 4; 5]%Z)).

(** The config (version "v2") loads, the input file is missing. *)
Definition no_input_env : Env :=
  {| path_exists := fun p => bool_decide (p = "config.yaml");
     yaml_safe_load := fun _ =>
       Ok (YMap [("seed", YInt 42); ("window", YInt 3); ("version", YStr "v2")]);
     read_csv := fun _ => Raise (Error OSError "No such file or directory") |}.

(** A table with an "open" column only. *)
Definition no_close_env : Env :=
  sample_env (Ok (sample_config (YInt 3)))
             (Ok (mkDF 2 {[ "open" := IntCol [1; 2]%Z ]})).

Definition window_error : error :=
  Error ValueError "window must be an integer 0 or greater".

(** ** Reports *)

Definition initial_state : State := mkState [LogJobStarted] None [].

(** The rate computed at line 95 from the float values [xs] of the close
    column. *)
Definition signal_rate (w : nat) (xs : list cell) : cell :=
  int_mean (signal xs (rolling_mean w xs)).


Definition metrics_of (seed version : yaml) (df : DataFrame) (w : nat)
    (xs : list cell) (start_time now : Q) : MetricsResult :=
  {| version := version;
     rows_processed := len df;
     metric := "signal_rate";
     value := round4 (signal_rate w xs);
     latency_ms := py_int ((now - start_time) * inject_Z 1000)%Q;
     seed := seed;
     status := "success" |}.

Definition success_state (seed window version : yaml) (m : MetricsResult) : State :=
  mkState
    [LogJobStarted; LogConfigLoaded seed window version;
     LogDataLoaded (rows_processed m); LogRollingMean window; LogSignals;
     LogMetrics (value m) (rows_processed m); LogCompleted (latency_ms m)]
    (Some (Complete (SuccessDoc m)))
    [SuccessDoc m].

Definition error_output (e : error) : ErrorResult :=
  {| err_version := "v1"; err_status := "error"; error_message := str e |}.

Definition error_state (st : State) (e : error) : State :=
  mkState (log st ++ [LogError (str e)])
          (Some (Complete (ErrorDoc (error_output e))))
          (stdout st ++ [ErrorDoc (error_output e)]).

(** A result with the latency_ms field put aside. *)
Definition sans_latency (m : MetricsResult) : MetricsResult :=
  {| version := version m;
     rows_processed := rows_processed m;
     metric := metric m;
     value := value m;
     latency_ms := 0;
     seed := seed m;
     status := status m |}.

Definition doc_sans_latency (d : document) : document :=
  match d with
  | SuccessDoc m => SuccessDoc (sans_latency m)
  | ErrorDoc e => ErrorDoc e
  end.

Definition content_sans_latency (c : file_content) : file_content :=
  match c with
  | Partial => Partial
  | Complete d => Complete (doc_sans_latency d)
  end.

(** Every step of the [try] block up to the metrics goes through. *)
Definition run_ok (env : Env) (args : Args) (seed window version : yaml)
    (df : DataFrame) (w : nat) (xs : list cell) : Prop :=
  exists (cfg : yaml) (close : column),
    load_config env (config args) = Ok cfg /\
    getitem cfg "seed" = Ok seed /\
    getitem cfg "window" = Ok window /\
    getitem cfg "version" = Ok version /\
    np_random_seed seed = Ok () /\
    load_data env (input args) = Ok df /\
    cols df !! "close" = Some close /\
    rolling_window window = Ok w /\
    as_float close = Ok xs /\
    json_ok version = true.

(** ** Further notions *)

(** The milestone lines of the log, in the order [main] writes them before
    the metrics. *)
Definition milestones (seed window version : yaml) (rows : nat) : list log_event :=
  [LogJobStarted; LogConfigLoaded seed window version; LogDataLoaded rows;
   LogRollingMean window; LogSignals].

(** The same files, except that the input file parses to [csv]. *)
Definition with_table (env : Env) (csv : result DataFrame) : Env :=
  {| path_exists := path_exists env;
     yaml_safe_load := yaml_safe_load env;
     read_csv := fun _ => csv |}.

Definition missing_field (key : string) : error :=
  Error ValueError ("Missing required config field: " +:+ key).

Definition seed_error : error :=
  Error ValueError "Seed must be between 0 and 2**32 - 1".

Definition dump_error : error :=
  Error TypeError "Object is not JSON serializable".

(** The level of a log line: [logging.error] for the error line,
    [logging.info] for the others. *)
Inductive log_level : Type := INFO | ERROR.

Definition level_of (ev : log_event) : log_level :=
  match ev with
  | LogError _ => ERROR
  | _ => INFO
  end.

(** A config whose version is a date. *)
Definition dated_env : Env :=
  sample_env (Ok (YMap [("seed", YInt 42); ("window", YInt 2);
                        ("version", YTimestamp "2024-01-01")]))
             (Ok (sample_table [1; 2; 3]%Z)).

(** ** Facts on windows *)

Section WindowFacts.

Lemma observations_length_le (win : list cell) :
  length (observations win) <= length win.
Proof.
  induction win as [|c win IH]; simpl; [lia|].
  destruct c; simpl; lia.
Qed.

Lemma roll_mean_short (minp : nat) (win : list cell) :
  length win < minp -> roll_mean minp win = NaN.
Proof.
  intros Hlen. unfold roll_mean.
  pose proof (observations_length_le win) as Hle.
  replace (minp <=? length (observations win)) with false
    by (symmetry; apply Nat.leb_gt; lia).
  reflexivity.
Qed.

Lemma observations_nan (win : list cell) :
  NaN ∈ win -> length (observations win) < length win.
Proof.
  induction win as [|c win IH]; intros Hin; [inversion Hin|].
  apply elem_of_cons in Hin as [<-|Hin]; simpl.
  - pose proof (observations_length_le win). unfold observations in *. lia.
  - specialize (IH Hin). destruct c; simpl; unfold observations in *; lia.
Qed.


Lemma window_at_length (w i : nat) (xs : list cell) :
  i < length xs -> length (window_at w i xs) = Nat.min w (S i).
Proof.
  intros Hi. unfold window_at, window_bounds.
  rewrite length_take, length_drop. lia.
Qed.


Lemma rolling_mean_length (w : nat) (close : list cell) :
  length (rolling_mean w close) = length close.
Proof. unfold rolling_mean. rewrite length_map, length_seq. reflexivity. Qed.

Lemma rolling_mean_lookup (w i : nat) (close : list cell) :
  i < length close ->
  rolling_mean w close !! i = Some (roll_mean w (window_at w i close)).
Proof.
  intros Hi. unfold rolling_mean.
  rewrite list_lookup_fmap, lookup_seq_lt by lia. reflexivity.
Qed.

End WindowFacts.

(** ** Running the [try] block *)

Section Monad.

Lemma bind_lift {A B : Type} (r : result A) (f : A -> M B) (st : State) :
  (lift r ≫= f) st =
  match r with
  | Ok a => f a st
  | Raise e => (Raised e, st)
  end.
Proof. unfold mbind, M_bind, lift. destruct r; reflexivity. Qed.

Lemma bind_logging {B : Type} (ev : log_event) (f : unit -> M B) (st : State) :
  (logging ev ≫= f) st = f () (mkState (log st ++ [ev]) (out_file st) (stdout st)).
Proof. reflexivity. Qed.

Lemma bind_open_output {B : Type} (f : unit -> M B) (st : State) :
  (open_output ≫= f) st = f () (mkState (log st) (Some Partial) (stdout st)).
Proof. reflexivity. Qed.

Lemma bind_json_dump {B : Type} (d : document) (f : unit -> M B) (st : State) :
  (json_dump d ≫= f) st =
  if serialisable d then f () (mkState (log st) (Some (Complete d)) (stdout st))
  else (Raised (Error TypeError "Object is not JSON serializable"), st).
Proof. unfold mbind, M_bind, json_dump. destruct (serialisable d); reflexivity. Qed.

Lemma bind_print_json {B : Type} (d : document) (f : unit -> M B) (st : State) :
  (print_json d ≫= f) st =
  if serialisable d then f () (mkState (log st) (out_file st) (stdout st ++ [d]))
  else (Raised (Error TypeError "Object is not JSON serializable"), st).
Proof. unfold mbind, M_bind, print_json. destruct (serialisable d); reflexivity. Qed.

End Monad.

Lemma np_random_seed_json (seed : yaml) :
  np_random_seed seed = Ok () -> json_ok seed = true.
Proof.
  destruct seed as [| | | | |l| |]; simpl; try done.
  destruct (negb (bool_decide (l = [])) && forallb is_seed_int l) eqn:H; [|done].
  intros _. apply andb_prop in H as [_ H].
  induction l as [|v l IH]; simpl in *; [done|].
  apply andb_prop in H as [Hv Hl]. rewrite IH by done.
  destruct v; simpl in *; done.
Qed.

Lemma get_column_set_eq (df : DataFrame) (name : string) (c : column) :
  get_column (set_column df name c) name = Ok c.
Proof. unfold get_column, set_column; simpl. rewrite lookup_insert_eq. reflexivity. Qed.

Lemma get_column_set_ne (df : DataFrame) (name name' : string) (c : column) :
  name <> name' ->
  get_column (set_column df name c) name' = get_column df name'.
Proof.
  intros Hne. unfold get_column, set_column; simpl.
  rewrite lookup_insert_ne by exact Hne. reflexivity.
Qed.

Lemma get_column_lookup (df : DataFrame) (name : string) (c : column) :
  get_column df name = Ok c <-> cols df !! name = Some c.
Proof.
  unfold get_column. destruct (cols df !! name); split; intros H; congruence.
Qed.

Lemma rolling_mean_column_ok (c : column) (window : yaml) (w : nat) (xs : list cell) :
  rolling_window window = Ok w -> as_float c = Ok xs ->
  rolling_mean_column c window = Ok (FloatCol (rolling_mean w xs)).
Proof. intros Hw Hx. unfold rolling_mean_column. rewrite Hw, Hx. reflexivity. Qed.

Lemma where_gt_ok (a b : column) (xs ys : list cell) :
  as_float a = Ok xs -> as_float b = Ok ys ->
  where_gt a b = Ok (IntCol (signal xs ys)).
Proof. intros Ha Hb. unfold where_gt. rewrite Ha, Hb. reflexivity. Qed.

Ltac eval_run :=
  repeat first
    [ rewrite bind_logging
    | rewrite bind_open_output
    | rewrite bind_json_dump
    | rewrite bind_print_json
    | rewrite bind_lift
    | match goal with
      | H : ?r = _ |- context [ match ?r with _ => _ end ] => rewrite H
      | H : ?r = _ |- context [ if ?r then _ else _ ] => rewrite H
      | H : json_ok ?v = _ |- context [ json_ok ?v ] => rewrite H
      end
    | rewrite get_column_set_eq
    | rewrite get_column_set_ne by discriminate
    | progress cbn [set_column cols nrows len log out_file stdout
                    mean_column serialisable version seed andb app] ].

Ltac fail_branch :=
  left; eexists _, _; split; cycle 1;
  [ intros t0 t1; unfold try_block; eval_run; reflexivity
  | reflexivity ].

Lemma try_block_cases (env : Env) (args : Args) :
  (exists (e : error) (st : State),
      stdout st = [] /\
      forall t0 t1 : Q, try_block env args t0 t1 initial_state = (Raised e, st)) \/
  (exists (seed window version : yaml) (df : DataFrame) (w : nat) (xs : list cell),
      run_ok env args seed window version df w xs /\
      forall t0 t1 : Q,
        try_block env args t0 t1 initial_state =
        (Exited 0%Z,
         success_state seed window version (metrics_of seed version df w xs t0 t1))).
Proof.
  destruct (load_config env (config args)) as [cfg|e] eqn:Hcfg; [|fail_branch].
  destruct (getitem cfg "seed") as [seed|e] eqn:Hseed; [|fail_branch].
  destruct (getitem cfg "window") as [window|e] eqn:Hwindow; [|fail_branch].
  destruct (getitem cfg "version") as [version|e] eqn:Hversion; [|fail_branch].
  destruct (np_random_seed seed) as [[]|e] eqn:Hnp; [|fail_branch].
  destruct (load_data env (input args)) as [df|e] eqn:Hdf; [|fail_branch].
  destruct (get_column df "close") as [close|e] eqn:Hclose; [|fail_branch].
  destruct (rolling_window window) as [w|e] eqn:Hw.
  2:{ assert (Hrm : rolling_mean_column close window = Raise e).
      { unfold rolling_mean_column. rewrite Hw. reflexivity. }
      fail_branch. }
  destruct (as_float close) as [xs|e] eqn:Hxs.
  2:{ assert (Hrm : rolling_mean_column close window = Raise e).
      { unfold rolling_mean_column. rewrite Hw, Hxs. reflexivity. }
      fail_branch. }
  pose proof (rolling_mean_column_ok _ _ _ _ Hw Hxs) as Hrm.
  pose proof (where_gt_ok close (FloatCol (rolling_mean w xs)) _ _ Hxs eq_refl) as Hsig.
  pose proof (np_random_seed_json _ Hnp) as Hjs.
  destruct (json_ok version) eqn:Hjv.
  - right. exists seed, window, version, df, w, xs. split.
    + exists cfg, close. apply get_column_lookup in Hclose. tauto.
    + intros t0 t1. unfold try_block. eval_run. reflexivity.
  - fail_branch.
Qed.

Section Arithmetic.

Lemma gt_spec (a b : cell) :
  gt a b = true <-> exists p q : Q, a = Val p /\ b = Val q /\ (q < p)%Q.
Proof.
  split.
  - destruct a as [|p], b as [|q]; simpl; try discriminate.
    intros H. exists p, q. split; [reflexivity|]. split; [reflexivity|].
    apply Qnot_le_lt. intros Hle. apply Qle_bool_iff in Hle.
    rewrite Hle in H. discriminate.
  - intros (p & q & -> & -> & Hlt). simpl.
    destruct (Qle_bool p q) eqn:Hle; [|reflexivity].
    apply Qle_bool_iff in Hle. exfalso. exact (Qlt_not_le _ _ Hlt Hle).
Qed.

Lemma gt_nan_r (a : cell) : gt a NaN = false.
Proof. destruct a; reflexivity. Qed.

Lemma Qnat_pos (n : nat) : 0 < n -> (0 < Qnat n)%Q.
Proof.
  intros Hn. unfold Qnat. change 0%Q with (inject_Z 0).
  rewrite <- Zlt_Qlt. lia.
Qed.




End Arithmetic.

(** ** Signals *)

Section SignalFacts.

Lemma signal_length (close rm : list cell) :
  length rm = length close -> length (signal close rm) = length close.
Proof. intros H. unfold signal. rewrite length_zip_with. lia. Qed.

Lemma signal_lookup (close rm : list cell) (i : nat) (c m : cell) :
  close !! i = Some c -> rm !! i = Some m ->
  signal close rm !! i = Some (if gt c m then 1%Z else 0%Z).
Proof.
  intros Hc Hm. unfold signal. rewrite lookup_zip_with, Hc. simpl.
  rewrite Hm. reflexivity.
Qed.



End SignalFacts.

(** C2, as the code has it.  The comparison of line 90 is made on
    float64 values: the close column is converted to float64 first.  For a
    close column [a] and a rolling mean column [b] of float64 values [xs]
    and [ms], the signal at every row is the integer 1 when the comparison
    is true and the integer 0 otherwise; the comparison is true exactly
    when both sides are numbers and the close value is the larger one, so
    on a row whose rolling mean is undefined, in particular on each of the
    first [w - 1] rows of the rolling mean with window [w], the signal is
    0. *)
Theorem signal_rule (a b : column) (xs ms : list cell) :
  as_float a = Ok xs -> as_float b = Ok ms ->
  where_gt a b = Ok (IntCol (signal xs ms)) /\
  (forall (i : nat) (c m : cell),
     xs !! i = Some c -> ms !! i = Some m ->
     signal xs ms !! i = Some (if gt c m then 1%Z else 0%Z) /\
     (gt c m = true <-> exists p q : Q, c = Val p /\ m = Val q /\ (q < p)%Q) /\
     (m = NaN -> signal xs ms !! i = Some 0%Z)) /\
  (forall w i : nat,
     i < length xs -> i < w - 1 ->
     rolling_mean w xs !! i = Some NaN /\
     signal xs (rolling_mean w xs) !! i = Some 0%Z).
Proof.
  intros Ha Hb. split; [|split].
  - unfold where_gt. rewrite Ha, Hb. reflexivity.
  - intros i c m Hc Hm.
    pose proof (signal_lookup _ _ _ _ _ Hc Hm) as Hs.
    split; [exact Hs|]. split; [apply gt_spec|].
    intros ->. rewrite Hs, gt_nan_r. reflexivity.
  - intros w i Hi Hlt.
    assert (Hn : roll_mean w (window_at w i xs) = NaN).
    { apply roll_mean_short. rewrite window_at_length by exact Hi. lia. }
    pose proof (rolling_mean_lookup w i xs Hi) as Hm. rewrite Hn in Hm.
    split; [exact Hm|].
    destruct (lookup_lt_is_Some_2 xs i Hi) as [c Hc].
    rewrite (signal_lookup _ _ _ _ _ Hc Hm), gt_nan_r. reflexivity.
Qed.

Lemma signal_rule_witness :
  where_gt (IntCol [1; 2; 3]%Z) (FloatCol [NaN; Val (3 # 2); Val (5 # 2)]) =
    Ok (IntCol [0; 1; 1]%Z).
Proof.
  exact (proj1 (signal_rule (IntCol [1; 2; 3]%Z)
                            (FloatCol [NaN; Val (3 # 2); Val (5 # 2)])
                            [Val 1; Val 2; Val 3]
                            [NaN; Val (3 # 2); Val (5 # 2)] eq_refl eq_refl)).
Defined.

(** C2, as stated, fails on the code: on the int64 close column
    [2^53, 2^53 + 1] with window 2 the close value of row 1, 2^53 + 1, is
    greater than the rolling mean of that row, 2^53, and the signal is 0:
    as a float64 the close value is 2^53. *)
Lemma signal_compares_float64 :
  rolling_mean_column (IntCol [2 ^ 53; 2 ^ 53 + 1]%Z) (YInt 2) =
    Ok (FloatCol [NaN; Val (inject_Z (2 ^ 53))]) /\
  where_gt (IntCol [2 ^ 53; 2 ^ 53 + 1]%Z)
           (FloatCol [NaN; Val (inject_Z (2 ^ 53))]) = Ok (IntCol [0; 0]%Z) /\
  (inject_Z (2 ^ 53) < inject_Z (2 ^ 53 + 1))%Q.
Proof.
  split; [vm_compute; reflexivity|]. split; [vm_compute; reflexivity|].
  reflexivity.
Qed.

(** ** The whole job *)

Section MainFacts.

Lemma except_block_run (e : error) (st : State) :
  except_block e st = (Exited 1%Z, error_state st e).
Proof. reflexivity. Qed.

Lemma main_raised (env : Env) (args : Args) (t0 t1 : Q) (e : error) (st : State) :
  try_block env args t0 t1 initial_state = (Raised e, st) ->
  main env args t0 t1 = (1%Z, error_state st e).
Proof.
  intros H. unfold main. fold initial_state. rewrite H, except_block_run.
  reflexivity.
Qed.

Lemma main_exited (env : Env) (args : Args) (t0 t1 : Q) (c : Z) (st : State) :
  try_block env args t0 t1 initial_state = (Exited c, st) ->
  main env args t0 t1 = (c, st).
Proof. intros H. unfold main. fold initial_state. rewrite H. reflexivity. Qed.

(** A run either reports an error with status 1 or reports metrics with
    status 0, whatever the clock says. *)
Lemma main_cases (env : Env) (args : Args) :
  (exists (e : error) (st : State),
      stdout st = [] /\
      forall t0 t1 : Q,
        try_block env args t0 t1 initial_state = (Raised e, st) /\
        main env args t0 t1 = (1%Z, error_state st e)) \/
  (exists (seed window version : yaml) (df : DataFrame) (w : nat) (xs : list cell),
      run_ok env args seed window version df w xs /\
      forall t0 t1 : Q,
        main env args t0 t1 =
        (0%Z, success_state seed window version
                (metrics_of seed version df w xs t0 t1))).
Proof.
  destruct (try_block_cases env args)
    as [(e & st & Hout & H) | (seed & window & version & df & w & xs & Hok & H)].
  - left. exists e, st. split; [exact Hout|]. intros t0 t1.
    split; [apply H | apply main_raised, H].
  - right. exists seed, window, version, df, w, xs. split; [exact Hok|].
    intros t0 t1. apply main_exited, H.
Qed.

Lemma main_success_inv (env : Env) (args : Args) (t0 t1 : Q) (st : State) :
  main env args t0 t1 = (0%Z, st) ->
  exists (seed window version : yaml) (df : DataFrame) (w : nat) (xs : list cell),
    run_ok env args seed window version df w xs /\
    st = success_state seed window version (metrics_of seed version df w xs t0 t1).
Proof.
  intros Hmain.
  destruct (main_cases env args)
    as [(e & st' & _ & H) | (seed & window & version & df & w & xs & Hok & H)].
  - destruct (H t0 t1) as [_ H1]. rewrite H1 in Hmain. discriminate.
  - exists seed, window, version, df, w, xs. split; [exact Hok|].
    rewrite H in Hmain. congruence.
Qed.

Lemma load_data_ok (env : Env) (path : string) (df : DataFrame) :
  path_exists env path = true -> read_csv env path = Ok df ->
  nrows df <> 0 -> is_Some (cols df !! "close") ->
  load_data env path = Ok df.
Proof.
  intros Hex Hread Hn Hclose. unfold load_data, empty, has_column.
  rewrite Hex, Hread. apply Nat.eqb_neq in Hn. rewrite Hn.
  rewrite bool_decide_eq_false_2.
  - simpl. rewrite bool_decide_eq_true_2 by exact Hclose. reflexivity.
  - intros Hc. rewrite Hc, lookup_empty in Hclose.
    destruct Hclose; discriminate.
Qed.

Lemma load_data_inv (env : Env) (path : string) (df : DataFrame) :
  load_data env path = Ok df ->
  path_exists env path = true /\ read_csv env path = Ok df /\
  empty df = false /\ is_Some (cols df !! "close").
Proof.
  unfold load_data. destruct (path_exists env path); simpl; [|discriminate].
  destruct (read_csv env path) as [df'|e]; [|discriminate].
  destruct (empty df') eqn:Hempty; [discriminate|].
  unfold has_column. case_bool_decide as Hclose; simpl; [|discriminate].
  intros [= <-]. auto.
Qed.

Lemma as_float_length (c : column) (xs : list cell) :
  as_float c = Ok xs -> length xs = col_len c.
Proof.
  destruct c; simpl; intros [= <-]; [reflexivity|].
  apply length_map.
Qed.

Lemma parsed_table_column (df : DataFrame) (name : string) (c : column) :
  parsed_table df = true -> cols df !! name = Some c -> col_len c = nrows df.
Proof.
  unfold parsed_table. intros H Hc. apply andb_prop in H as [_ H].
  apply bool_decide_eq_true in H. exact (H name c Hc).
Qed.

Lemma empty_false (df : DataFrame) :
  empty df = false -> nrows df <> 0 /\ cols df <> ∅.
Proof.
  unfold empty. intros H. apply orb_false_elim in H as [Hn Hc].
  apply Nat.eqb_neq in Hn. apply bool_decide_eq_false in Hc. auto.
Qed.

Lemma int_mean_nonempty (l : list Z) :
  0 < length l -> int_mean l = Val (Qmean (inject_Z (Zsum l)) (length l)).
Proof. destruct l; simpl; [lia | reflexivity]. Qed.


End MainFacts.

Section Stages.

Variables (env : Env) (args : Args).

Lemma try_block_success (seed window version : yaml) (df : DataFrame)
    (w : nat) (xs : list cell) (t0 t1 : Q) :
  run_ok env args seed window version df w xs ->
  try_block env args t0 t1 initial_state =
  (Exited 0%Z,
   success_state seed window version (metrics_of seed version df w xs t0 t1)).
Proof.
  intros (cfg & close & Hcfg & Hseed & Hwindow & Hversion & Hnp & Hdf & Hclose
          & Hw & Hxs & Hjv).
  apply get_column_lookup in Hclose.
  pose proof (rolling_mean_column_ok _ _ _ _ Hw Hxs) as Hrm.
  pose proof (where_gt_ok close (FloatCol (rolling_mean w xs)) _ _ Hxs eq_refl) as Hsig.
  pose proof (np_random_seed_json _ Hnp) as Hjs.
  unfold try_block. eval_run. reflexivity.
Qed.

Lemma main_success (seed window version : yaml) (df : DataFrame)
    (w : nat) (xs : list cell) (t0 t1 : Q) :
  run_ok env args seed window version df w xs ->
  main env args t0 t1 =
  (0%Z, success_state seed window version (metrics_of seed version df w xs t0 t1)).
Proof. intros H. apply main_exited, try_block_success, H. Qed.

(** A failure of the config loader. *)
Lemma config_failure (e : error) (t0 t1 : Q) :
  load_config env (config args) = Raise e ->
  try_block env args t0 t1 initial_state = (Raised e, initial_state).
Proof. intros Hcfg. unfold try_block. eval_run. reflexivity. Qed.

(** A failure of the data loader, after the config went through. *)
Lemma data_failure (cfg seed window version : yaml) (e : error) (t0 t1 : Q) :
  load_config env (config args) = Ok cfg ->
  getitem cfg "seed" = Ok seed ->
  getitem cfg "window" = Ok window ->
  getitem cfg "version" = Ok version ->
  np_random_seed seed = Ok () ->
  load_data env (input args) = Raise e ->
  try_block env args t0 t1 initial_state =
  (Raised e,
   mkState [LogJobStarted; LogConfigLoaded seed window version] None []).
Proof.
  intros Hcfg Hseed Hwindow Hversion Hnp Hdf.
  unfold try_block. eval_run. reflexivity.
Qed.

(** A failure of the rolling mean, after config and data went through. *)
Lemma transform_failure (cfg seed window version : yaml) (df : DataFrame)
    (close : column) (e : error) (t0 t1 : Q) :
  load_config env (config args) = Ok cfg ->
  getitem cfg "seed" = Ok seed ->
  getitem cfg "window" = Ok window ->
  getitem cfg "version" = Ok version ->
  np_random_seed seed = Ok () ->
  load_data env (input args) = Ok df ->
  cols df !! "close" = Some close ->
  rolling_mean_column close window = Raise e ->
  try_block env args t0 t1 initial_state =
  (Raised e,
   mkState [LogJobStarted; LogConfigLoaded seed window version;
            LogDataLoaded (len df)] None []).
Proof.
  intros Hcfg Hseed Hwindow Hversion Hnp Hdf Hclose Hrm.
  apply get_column_lookup in Hclose.
  unfold try_block. eval_run. reflexivity.
Qed.

(** A failure of [json.dump] on the metrics: the output file is left
    incomplete. *)
Lemma dump_failure (seed window version : yaml) (df : DataFrame)
    (w : nat) (xs : list cell) (cfg : yaml) (close : column) (t0 t1 : Q) :
  load_config env (config args) = Ok cfg ->
  getitem cfg "seed" = Ok seed ->
  getitem cfg "window" = Ok window ->
  getitem cfg "version" = Ok version ->
  np_random_seed seed = Ok () ->
  load_data env (input args) = Ok df ->
  cols df !! "close" = Some close ->
  rolling_window window = Ok w ->
  as_float close = Ok xs ->
  json_ok version = false ->
  try_block env args t0 t1 initial_state =
  (Raised (Error TypeError "Object is not JSON serializable"),
   mkState [LogJobStarted; LogConfigLoaded seed window version;
            LogDataLoaded (len df); LogRollingMean window; LogSignals]
           (Some Partial) []).
Proof.
  intros Hcfg Hseed Hwindow Hversion Hnp Hdf Hclose Hw Hxs Hjv.
  apply get_column_lookup in Hclose.
  pose proof (rolling_mean_column_ok _ _ _ _ Hw Hxs) as Hrm.
  pose proof (where_gt_ok close (FloatCol (rolling_mean w xs)) _ _ Hxs eq_refl) as Hsig.
  unfold try_block. eval_run. reflexivity.
Qed.

End Stages.

(** ** C3: the signal rate *)


(** ** C4: the worked example *)

(** C4. With close = [1, 2, 3, 4, 5] and window 3 the rolling mean is
    [_, _, 2, 3, 4], the signal is [0, 0, 1, 1, 1] and the signal rate is
    0.6 (3/5); the job reports the value 0.6 over 5 rows with status 0,
    whatever the clock says. *)
Theorem example_close5 :
  as_float (IntCol [1; 2; 3; 4; 5]%Z) = Ok close5 /\
  rolling_mean 3 close5 = [NaN; NaN; Val 2; Val 3; Val 4] /\
  signal close5 (rolling_mean 3 close5) = [0; 0; 1; 1; 1]%Z /\
  signal_rate 3 close5 = Val (3 # 5) /\
  (3 # 5 == 0.6)%Q /\
  round4 (signal_rate 3 close5) = Val (3 # 5) /\
  forall t0 t1 : Q,
    exists m : MetricsResult,
      main close5_env sample_args t0 t1 =
        (0%Z, success_state (YInt 42) (YInt 3) (YStr "v1") m) /\
      value m = Val (3 # 5) /\ rows_processed m = 5.
Proof.
  repeat (split; [reflexivity|]).
  intros t0 t1.
  exists (metrics_of (YInt 42) (YStr "v1") (sample_table [1; 2; 3; 4; 5]%Z) 3 close5 t0 t1).
  split; [|split; reflexivity].
  apply main_success.
  exists (sample_config (YInt 3)), (IntCol [1; 2; 3; 4; 5]%Z).
  repeat split; reflexivity.
Qed.

(** ** C5: the error report *)

(** C5. Whenever the [try] block raises an exception [e] (from the config
    loader, the data loader, the transform or the metrics) the job ends
    with status 1; the output file then holds exactly the document
    {version: "v1", status: "error", error_message: str(e)} (replacing
    whatever the run had written there), the same document is the only
    thing printed, and the log gets an error line.  The version is the
    literal "v1" whatever the config says. *)
Theorem failure_report (env : Env) (args : Args) (t0 t1 : Q) (e : error) (st : State) :
  try_block env args t0 t1 initial_state = (Raised e, st) ->
  let report :=
    {| err_version := "v1"; err_status := "error"; error_message := str e |} in
  exists st' : State,
    main env args t0 t1 = (1%Z, st') /\
    out_file st' = Some (Complete (ErrorDoc report)) /\
    stdout st' = [ErrorDoc report] /\
    log st' = log st ++ [LogError (str e)].
Proof.
  intros Htry report.
  exists (error_state st e). split; [apply main_raised, Htry|].
  split; [reflexivity|]. split; [|reflexivity].
  destruct (try_block_cases env args) as [(e' & st' & Hout & H) | (? & ? & ? & ? & ? & ? & _ & H)].
  - rewrite H in Htry. injection Htry as <- <-.
    unfold error_state; simpl. rewrite Hout. reflexivity.
  - rewrite H in Htry. discriminate.
Qed.

Lemma failure_report_witness :
  exists st' : State,
    main no_input_env sample_args 0 1 = (1%Z, st') /\
    out_file st' =
      Some (Complete (ErrorDoc {| err_version := "v1"; err_status := "error";
                                  error_message := "Input CSV file not found." |})) /\
    stdout st' =
      [ErrorDoc {| err_version := "v1"; err_status := "error";
                   error_message := "Input CSV file not found." |}] /\
    log st' =
      [LogJobStarted; LogConfigLoaded (YInt 42) (YInt 3) (YStr "v2");
       LogError "Input CSV file not found."].
Proof.
  exact (failure_report no_input_env sample_args 0 1
           (Error FileNotFoundError "Input CSV file not found.")
           (mkState [LogJobStarted; LogConfigLoaded (YInt 42) (YInt 3) (YStr "v2")]
                    None [])
           eq_refl).
Defined.

(** ** C6: the data loader *)

(** C6. [load_data] fails with the not-found error when the path does not
    exist; otherwise with the parse error when [pd.read_csv] raises
    anything; otherwise, on the table [df] that was parsed, with the
    empty-input error when [df] has no rows; otherwise with the
    missing-column error when [df] has no "close" column; otherwise it
    returns [df] as parsed, whatever its other columns are. *)
Theorem load_data_order (env : Env) (path : string) :
  (path_exists env path = false ->
     load_data env path = Raise (Error FileNotFoundError "Input CSV file not found.")) /\
  (path_exists env path = true ->
     (forall e, read_csv env path = Raise e ->
        load_data env path = Raise (Error ValueError "Invalid CSV file format.")) /\
     (forall df, read_csv env path = Ok df ->
        (nrows df = 0 ->
           load_data env path = Raise (Error ValueError "Input CSV file is empty.")) /\
        (nrows df <> 0 -> cols df <> ∅ -> cols df !! "close" = None ->
           load_data env path =
             Raise (Error ValueError "Required column 'close' is missing.")) /\
        (nrows df <> 0 -> is_Some (cols df !! "close") ->
           load_data env path = Ok df))).
Proof.
  split.
  - intros Hex. unfold load_data. rewrite Hex. reflexivity.
  - intros Hex. split.
    + intros e Hread. unfold load_data. rewrite Hex, Hread. reflexivity.
    + intros df Hread. split; [|split].
      * intros Hn. unfold load_data, empty. rewrite Hex, Hread, Hn. reflexivity.
      * intros Hn Hc Hclose. unfold load_data, empty, has_column.
        rewrite Hex, Hread. apply Nat.eqb_neq in Hn. rewrite Hn.
        rewrite bool_decide_eq_false_2 by exact Hc. simpl.
        rewrite bool_decide_eq_false_2; [reflexivity|].
        rewrite Hclose. intros [? ?]; discriminate.
      * intros Hn Hclose. apply load_data_ok; assumption.
Qed.

Lemma load_data_order_witness :
  load_data no_close_env "data.csv" =
    Raise (Error ValueError "Required column 'close' is missing.").
Proof.
  destruct (load_data_order no_close_env "data.csv") as [_ H].
  destruct (H eq_refl) as [_ H'].
  destruct (H' _ eq_refl) as (_ & Hmissing & _).
  apply Hmissing.
  - simpl. lia.
  - simpl. apply map_non_empty_singleton.
  - vm_compute. reflexivity.
Defined.

(** ** C7: the window is not checked by the config loader *)

Lemma check_keys_map (m : list (string * yaml)) (keys : list string) :
  Forall (fun key => is_Some (assoc key m)) keys ->
  check_keys keys (YMap m) = Ok ().
Proof.
  induction 1 as [|key keys Hkey _ IH]; simpl; [reflexivity|].
  rewrite bool_decide_eq_true_2 by exact Hkey. exact IH.
Qed.

Lemma load_config_map (env : Env) (path : string) (m : list (string * yaml)) :
  path_exists env path = true ->
  yaml_safe_load env path = Ok (YMap m) ->
  Forall (fun key => is_Some (assoc key m)) required_keys ->
  load_config env path = Ok (YMap m).
Proof.
  intros Hex Hload Hkeys. unfold load_config. rewrite Hex, Hload.
  cbn [negb mbind result_bind].
  rewrite (check_keys_map m required_keys Hkeys). reflexivity.
Qed.

(** C7. A config file that is a mapping with the keys seed, window and
    version is returned by [load_config] as parsed, whatever the value of
    window.  A window that is not an integer, or a negative integer, is
    rejected by the rolling mean (window 0 is accepted); when that
    happens, with a seed numpy accepts and an input file that loads, the
    job has logged "Config loaded" and "Data loaded" and then ends with
    status 1 and the error report of that exception. *)
Theorem window_checked_by_transform (env : Env) (args : Args)
    (m : list (string * yaml)) (seed window version : yaml) :
  path_exists env (config args) = true ->
  yaml_safe_load env (config args) = Ok (YMap m) ->
  assoc "seed" m = Some seed ->
  assoc "window" m = Some window ->
  assoc "version" m = Some version ->
  load_config env (config args) = Ok (YMap m) /\
  ((forall z : Z, window <> YInt z) -> rolling_window window = Raise window_error) /\
  (forall z : Z, window = YInt z -> (z < 0)%Z ->
     rolling_window window = Raise window_error) /\
  (window = YInt 0 -> rolling_window window = Ok 0) /\
  (forall (e : error) (df : DataFrame) (t0 t1 : Q),
     rolling_window window = Raise e ->
     np_random_seed seed = Ok () ->
     load_data env (input args) = Ok df ->
     main env args t0 t1 =
       (1%Z,
        mkState [LogJobStarted; LogConfigLoaded seed window version;
                 LogDataLoaded (len df); LogError (str e)]
                (Some (Complete (ErrorDoc (error_output e))))
                [ErrorDoc (error_output e)])).
Proof.
  intros Hex Hload Hseed Hwindow Hversion.
  assert (Hcfg : load_config env (config args) = Ok (YMap m)).
  { apply load_config_map; [exact Hex | exact Hload |].
    repeat constructor; [rewrite Hseed | rewrite Hwindow | rewrite Hversion]; eauto. }
  split; [exact Hcfg|]. split; [|split; [|split]].
  - intros Hne. destruct window; try reflexivity. destruct (Hne z eq_refl).
  - intros z -> Hz. simpl.
    replace (z <? 0)%Z with true by (symmetry; apply Z.ltb_lt; exact Hz).
    reflexivity.
  - intros ->. reflexivity.
  - intros e df t0 t1 Hw Hnp Hdf.
    pose proof (load_data_inv _ _ _ Hdf) as (_ & _ & _ & [close Hclose]).
    assert (Hrm : rolling_mean_column close window = Raise e).
    { unfold rolling_mean_column. rewrite Hw. reflexivity. }
    rewrite (main_raised env args t0 t1 e
               (mkState [LogJobStarted; LogConfigLoaded seed window version;
                         LogDataLoaded (len df)] None [])); [reflexivity|].
    eapply transform_failure; eauto; simpl; by rewrite ?Hseed, ?Hwindow, ?Hversion.
Qed.

Lemma window_checked_by_transform_witness :
  load_config (sample_env (Ok (sample_config (YStr "ten"))) (Ok (sample_table [1; 2; 3]%Z)))
              "config.yaml" =
    Ok (sample_config (YStr "ten")) /\
  (main (sample_env (Ok (sample_config (YStr "ten"))) (Ok (sample_table [1; 2; 3]%Z)))
        sample_args 0 1).1 = 1%Z.
Proof.
  destruct (window_checked_by_transform
              (sample_env (Ok (sample_config (YStr "ten"))) (Ok (sample_table [1; 2; 3]%Z)))
              sample_args
              [("seed", YInt 42); ("window", YStr "ten"); ("version", YStr "v1")]
              (YInt 42) (YStr "ten") (YStr "v1")
              eq_refl eq_refl eq_refl eq_refl eq_refl)
    as (Hcfg & Hbad & _ & _ & Hmain).
  split; [exact Hcfg|].
  rewrite (Hmain window_error (sample_table [1; 2; 3]%Z) 0%Q 1%Q);
    [reflexivity | apply Hbad; discriminate | reflexivity | reflexivity].
Defined.

(** ** C8: two runs on the same files *)

(** C8. Two runs on the same files, at any times, end with the same exit
    status, and what they write to the output file and to standard output
    is the same once the latency_ms field is put aside: the same version,
    rows_processed, metric, value, seed and status (or the same error
    report). *)
Theorem runs_agree_up_to_latency (env : Env) (args : Args) (t0 t1 t0' t1' : Q) :
  (main env args t0 t1).1 = (main env args t0' t1').1 /\
  content_sans_latency <$> out_file (main env args t0 t1).2 =
    content_sans_latency <$> out_file (main env args t0' t1').2 /\
  doc_sans_latency <$> stdout (main env args t0 t1).2 =
    doc_sans_latency <$> stdout (main env args t0' t1').2.
Proof.
  destruct (main_cases env args)
    as [(e & st & _ & H) | (seed & window & version & df & w & xs & _ & H)].
  - destruct (H t0 t1) as [_ ->]. destruct (H t0' t1') as [_ ->]. auto.
  - rewrite (H t0 t1), (H t0' t1'). auto.
Qed.

(** ** C10: a window longer than the table *)

Section ShortTable.

Lemma rolling_mean_short_table (w : nat) (xs : list cell) :
  length xs < w -> rolling_mean w xs = replicate (length xs) NaN.
Proof.
  intros Hlen. apply list_eq. intros i.
  destruct (decide (i < length xs)) as [Hi|Hi].
  - rewrite rolling_mean_lookup by exact Hi.
    rewrite lookup_replicate_2 by exact Hi. f_equal.
    apply roll_mean_short. rewrite window_at_length by exact Hi. lia.
  - rewrite !lookup_ge_None_2; [reflexivity | |].
    + rewrite length_replicate. lia.
    + rewrite rolling_mean_length. lia.
Qed.

Lemma signal_all_nan (xs : list cell) :
  signal xs (replicate (length xs) NaN) = replicate (length xs) 0%Z.
Proof.
  unfold signal. induction xs as [|c xs IH]; simpl; [reflexivity|].
  rewrite gt_nan_r, IH. reflexivity.
Qed.

Lemma Zsum_zeros (n : nat) : Zsum (replicate n 0%Z) = 0%Z.
Proof. induction n as [|n IH]; simpl; [reflexivity | exact IH]. Qed.

Lemma int_mean_zeros (n : nat) : 0 < n -> int_mean (replicate n 0%Z) = Val 0.
Proof.
  intros Hn. rewrite int_mean_nonempty by (rewrite length_replicate; exact Hn).
  rewrite Zsum_zeros. reflexivity.
Qed.

Variables (env : Env) (args : Args).
Variables (m : list (string * yaml)) (s wz : Z) (v : string).
Variables (df : DataFrame) (close : column) (xs : list cell).

(** A valid config: an integer seed numpy accepts, a positive integer
    window, a version string. *)
Hypothesis config_exists : path_exists env (config args) = true.
Hypothesis config_parsed : yaml_safe_load env (config args) = Ok (YMap m).
Hypothesis config_seed : assoc "seed" m = Some (YInt s).
Hypothesis seed_range : (0 <= s < 2 ^ 32)%Z.
Hypothesis config_window : assoc "window" m = Some (YInt wz).
Hypothesis window_range : (1 <= wz < 2 ^ 63)%Z.
Hypothesis config_version : assoc "version" m = Some (YStr v).

(** A non-empty input with a numeric close column. *)
Hypothesis input_exists : path_exists env (input args) = true.
Hypothesis input_parsed : read_csv env (input args) = Ok df.
Hypothesis input_table : parsed_table df = true.
Hypothesis input_rows : 0 < nrows df.
Hypothesis input_close : cols df !! "close" = Some close.
Hypothesis close_numeric : as_float close = Ok xs.

Lemma valid_run_ok :
  run_ok env args (YInt s) (YInt wz) (YStr v) df (Z.to_nat wz) xs.
Proof.
  exists (YMap m), close.
  split.
  { apply load_config_map; [exact config_exists | exact config_parsed |].
    repeat constructor;
      [rewrite config_seed | rewrite config_window | rewrite config_version]; eauto. }
  split; [simpl; rewrite config_seed; reflexivity|].
  split; [simpl; rewrite config_window; reflexivity|].
  split; [simpl; rewrite config_version; reflexivity|].
  split.
  { simpl. unfold seed_in_range.
    replace (0 <=? s)%Z with true by (symmetry; apply Z.leb_le; lia).
    replace (s <? 2 ^ 32)%Z with true by (symmetry; apply Z.ltb_lt; lia).
    reflexivity. }
  split.
  { apply load_data_ok; [exact input_exists | exact input_parsed | lia |].
    rewrite input_close. eauto. }
  split; [exact input_close|].
  split.
  { simpl.
    replace (wz <? 0)%Z with false by (symmetry; apply Z.ltb_ge; lia).
    replace (2 ^ 63 <=? wz)%Z with false by (symmetry; apply Z.leb_gt; lia).
    reflexivity. }
  split; [exact close_numeric | reflexivity].
Qed.

Lemma valid_run_length : length xs = nrows df.
Proof.
  rewrite (as_float_length _ _ close_numeric).
  exact (parsed_table_column _ _ _ input_table input_close).
Qed.

(** C10. With a valid config and a non-empty input whose close column is
    numeric, when the window exceeds the number of rows every rolling mean
    is undefined, every signal is 0, and the job ends with status 0 and
    reports the value 0.0 over all the rows. *)
Theorem window_exceeds_rows :
  (Z.of_nat (nrows df) < wz)%Z ->
  rolling_mean (Z.to_nat wz) xs = replicate (nrows df) NaN /\
  signal xs (rolling_mean (Z.to_nat wz) xs) = replicate (nrows df) 0%Z /\
  signal_rate (Z.to_nat wz) xs = Val 0 /\
  forall t0 t1 : Q,
    exists r : MetricsResult,
      main env args t0 t1 = (0%Z, success_state (YInt s) (YInt wz) (YStr v) r) /\
      value r = Val 0 /\
      rows_processed r = nrows df /\
      status r = "success".
Proof.
  intros Hbig. pose proof valid_run_length as Hlen.
  assert (Hrm : rolling_mean (Z.to_nat wz) xs = replicate (nrows df) NaN).
  { rewrite <- Hlen. apply rolling_mean_short_table. lia. }
  assert (Hsig : signal xs (rolling_mean (Z.to_nat wz) xs) = replicate (nrows df) 0%Z).
  { rewrite Hrm, <- Hlen. apply signal_all_nan. }
  assert (Hrate : signal_rate (Z.to_nat wz) xs = Val 0).
  { unfold signal_rate. rewrite Hsig. apply int_mean_zeros. exact input_rows. }
  split; [exact Hrm|]. split; [exact Hsig|]. split; [exact Hrate|].
  intros t0 t1.
  exists (metrics_of (YInt s) (YStr v) df (Z.to_nat wz) xs t0 t1).
  split; [apply main_success, valid_run_ok|].
  split; [|split; reflexivity].
  cbn [metrics_of value]. rewrite Hrate. reflexivity.
Qed.

End ShortTable.

Lemma window_exceeds_rows_witness :
  exists r : MetricsResult,
    main (sample_env (Ok (sample_config (YInt 9))) (Ok (sample_table [1; 2; 3; 4; 5]%Z)))
         sample_args 0 1 =
      (0%Z, success_state (YInt 42) (YInt 9) (YStr "v1") r) /\
    value r = Val 0 /\ rows_processed r = 5 /\ status r = "success".
Proof.
  refine (proj2 (proj2 (proj2
    (window_exceeds_rows
       (sample_env (Ok (sample_config (YInt 9))) (Ok (sample_table [1; 2; 3; 4; 5]%Z)))
       sample_args
       [("seed", YInt 42); ("window", YInt 9); ("version", YStr "v1")]
       42 9 "v1" (sample_table [1; 2; 3; 4; 5]%Z) (IntCol [1; 2; 3; 4; 5]%Z)
       [Val 1; Val 2; Val 3; Val 4; Val 5]
       eq_refl eq_refl eq_refl _ eq_refl _ eq_refl eq_refl eq_refl eq_refl _
       eq_refl eq_refl _))) 0%Q 1%Q); simpl; lia.
Defined.

(** ** Further facts on means *)

Section MeanBounds.

Lemma Qnat_S (n : nat) : (Qnat (S n) == 1 + Qnat n)%Q.
Proof.
  unfold Qnat. rewrite Nat2Z.inj_succ, <- Z.add_1_l, inject_Z_plus. reflexivity.
Qed.

Lemma Qsum_lower (lo : Q) (l : list Q) :
  Forall (fun q => (lo <= q)%Q) l -> (Qnat (length l) * lo <= Qsum l)%Q.
Proof.
  induction 1 as [|q l Hq _ IH]; simpl length; simpl Qsum.
  - unfold Qnat. simpl. rewrite Qmult_0_l. apply Qle_refl.
  - rewrite Qnat_S, Qmult_plus_distr_l, Qmult_1_l.
    apply Qplus_le_compat; assumption.
Qed.

Lemma Qsum_upper (hi : Q) (l : list Q) :
  Forall (fun q => (q <= hi)%Q) l -> (Qsum l <= Qnat (length l) * hi)%Q.
Proof.
  induction 1 as [|q l Hq _ IH]; simpl length; simpl Qsum.
  - unfold Qnat. simpl. rewrite Qmult_0_l. apply Qle_refl.
  - rewrite Qnat_S, Qmult_plus_distr_l, Qmult_1_l.
    apply Qplus_le_compat; assumption.
Qed.

Lemma Qsum_upper_strict (hi : Q) (l : list Q) :
  Forall (fun q => (q <= hi)%Q) l -> Exists (fun q => (q < hi)%Q) l ->
  (Qsum l < Qnat (length l) * hi)%Q.
Proof.
  induction 1 as [|q l Hq Hl IH]; intros Hex; [inversion Hex|].
  simpl length; simpl Qsum.
  rewrite Qnat_S, Qmult_plus_distr_l, Qmult_1_l.
  apply Exists_cons in Hex as [Hlt|Hex].
  - apply Qplus_lt_le_compat; [exact Hlt | apply Qsum_upper, Hl].
  - rewrite (Qplus_comm q), (Qplus_comm hi).
    apply Qplus_lt_le_compat; [apply IH, Hex | exact Hq].
Qed.

Lemma observations_elem (q : Q) (win : list cell) :
  q ∈ observations win <-> Val q ∈ win.
Proof.
  unfold observations. rewrite list_elem_of_omap. split.
  - intros (c & Hc & Hv). destruct c; simpl in Hv; [discriminate|].
    injection Hv as ->. exact Hc.
  - intros Hc. exists (Val q). split; [exact Hc | reflexivity].
Qed.

Lemma roll_mean_val (minp : nat) (win : list cell) (m : Q) :
  roll_mean minp win = Val m ->
  0 < length (observations win) /\ minp <= length (observations win) /\
  (m == Qsum (observations win) / Qnat (length (observations win)))%Q.
Proof.
  unfold roll_mean.
  destruct (minp <=? length (observations win)) eqn:Hminp; [|discriminate].
  destruct (0 <? length (observations win)) eqn:Hpos; [|discriminate].
  simpl. intros [= <-]. apply Nat.leb_le in Hminp. apply Nat.ltb_lt in Hpos.
  split; [exact Hpos|]. split; [exact Hminp|]. unfold Qmean. apply Qred_correct.
Qed.

Lemma roll_mean_ge (minp : nat) (win : list cell) (m lo : Q) :
  roll_mean minp win = Val m ->
  (forall q, Val q ∈ win -> (lo <= q)%Q) -> (lo <= m)%Q.
Proof.
  intros Hm Hlo. apply roll_mean_val in Hm as (Hpos & _ & ->).
  apply Qle_shift_div_l; [apply Qnat_pos, Hpos|].
  rewrite Qmult_comm. apply Qsum_lower, Forall_forall.
  intros q Hq. apply Hlo, observations_elem, Hq.
Qed.

Lemma roll_mean_lt (minp : nat) (win : list cell) (m hi : Q) :
  roll_mean minp win = Val m ->
  (forall q, Val q ∈ win -> (q <= hi)%Q) ->
  (exists q, Val q ∈ win /\ (q < hi)%Q) -> (m < hi)%Q.
Proof.
  intros Hm Hhi (q0 & Hq0 & Hlt). apply roll_mean_val in Hm as (Hpos & _ & ->).
  apply Qlt_shift_div_r; [apply Qnat_pos, Hpos|].
  rewrite Qmult_comm. apply Qsum_upper_strict.
  - apply Forall_forall. intros q Hq. apply Hhi, observations_elem, Hq.
  - apply Exists_exists. exists q0. split; [apply observations_elem, Hq0 | exact Hlt].
Qed.

(** The rows of the window ending at row [i] are the rows [j] of the
    column with [i + 1 - w <= j <= i]. *)
Lemma window_at_lookup (w i : nat) (xs : list cell) (c : cell) :
  c ∈ window_at w i xs <->
  exists j : nat, S i - w <= j /\ j <= i /\ xs !! j = Some c.
Proof.
  unfold window_at, window_bounds. rewrite list_elem_of_lookup. split.
  - intros (k & Hk). apply lookup_take_Some in Hk as [Hk Hlt].
    rewrite lookup_drop in Hk. exists (S i - w + k). split; [lia|].
    split; [lia | exact Hk].
  - intros (j & Hlo & Hhi & Hj). exists (j - (S i - w)).
    apply lookup_take_Some. split; [|lia].
    rewrite lookup_drop. replace (S i - w + (j - (S i - w))) with j by lia.
    exact Hj.
Qed.

End MeanBounds.

Section SignalShapes.

Lemma signal_lookup_total (close : list cell) (w i : nat) (c : cell) :
  close !! i = Some c ->
  signal close (rolling_mean w close) !! i =
    Some (if gt c (roll_mean w (window_at w i close)) then 1%Z else 0%Z).
Proof.
  intros Hc. apply signal_lookup; [exact Hc|].
  apply rolling_mean_lookup. exact (lookup_lt_Some _ _ _ Hc).
Qed.

Lemma signal_rm_length (close : list cell) (w : nat) :
  length (signal close (rolling_mean w close)) = length close.
Proof. apply signal_length, rolling_mean_length. Qed.

(** When no close value is above any value of its own window, nothing is
    signalled. *)
Lemma signal_all_zero (close : list cell) (w : nat) :
  (forall i p q, close !! i = Some (Val p) ->
                 Val q ∈ window_at w i close -> (p <= q)%Q) ->
  signal close (rolling_mean w close) = replicate (length close) 0%Z.
Proof.
  intros Hwin. apply list_eq. intros i.
  destruct (close !! i) as [c|] eqn:Hc.
  - pose proof (lookup_lt_Some _ _ _ Hc) as Hi.
    rewrite (signal_lookup_total _ _ _ _ Hc), lookup_replicate_2 by exact Hi.
    f_equal. destruct c as [|p]; [reflexivity|].
    destruct (roll_mean w (window_at w i close)) as [|m] eqn:Hm; [reflexivity|].
    simpl. assert (Hle : (p <= m)%Q).
    { eapply roll_mean_ge; [exact Hm|]. intros q Hq. exact (Hwin i p q Hc Hq). }
    apply Qle_bool_iff in Hle. rewrite Hle. reflexivity.
  - apply lookup_ge_None in Hc.
    rewrite !lookup_ge_None_2; [reflexivity | |].
    + rewrite length_replicate. exact Hc.
    + rewrite signal_rm_length. exact Hc.
Qed.

Lemma Zsum_app (l k : list Z) : Zsum (l ++ k) = (Zsum l + Zsum k)%Z.
Proof. induction l as [|x l IH]; simpl; [reflexivity | rewrite IH; lia]. Qed.

Lemma Zsum_ones (n : nat) : Zsum (replicate n 1%Z) = Z.of_nat n.
Proof. induction n as [|n IH]; simpl replicate; simpl Zsum; [reflexivity | lia]. Qed.


End SignalShapes.

(** ** C1: the rolling mean *)

Section IntegerWindows.




End IntegerWindows.




(** X2. A missing close value blanks its window: if row [j] of the close
    column is NaN, the rolling mean is NaN and the signal is 0 on every row
    [i] of the table with [j <= i < j + w]. *)
Theorem missing_value_blanks_window (close : list cell) (w i j : nat) :
  close !! j = Some NaN -> j <= i -> i < j + w -> i < length close ->
  rolling_mean w close !! i = Some NaN /\
  signal close (rolling_mean w close) !! i = Some 0%Z.
Proof.
  intros Hj Hji Hiw Hi.
  assert (Hnan : roll_mean w (window_at w i close) = NaN).
  { unfold roll_mean.
    assert (Hin : NaN ∈ window_at w i close).
    { apply window_at_lookup. exists j. split; [lia|]. split; [lia | exact Hj]. }
    apply observations_nan in Hin.
    rewrite window_at_length in Hin by exact Hi.
    replace (w <=? length (observations (window_at w i close))) with false
      by (symmetry; apply Nat.leb_gt; lia).
    reflexivity. }
  split.
  - rewrite rolling_mean_lookup by exact Hi. rewrite Hnan. reflexivity.
  - destruct (lookup_lt_is_Some_2 close i Hi) as [c Hc].
    rewrite (signal_lookup_total _ _ _ _ Hc), Hnan, gt_nan_r. reflexivity.
Qed.

Lemma missing_value_blanks_window_witness :
  rolling_mean 2 [Val 1; NaN; Val 3; Val 4] !! 2 = Some NaN /\
  signal [Val 1; NaN; Val 3; Val 4] (rolling_mean 2 [Val 1; NaN; Val 3; Val 4]) !! 2
    = Some 0%Z.
Proof.
  apply (missing_value_blanks_window [Val 1; NaN; Val 3; Val 4] 2 2 1);
    [reflexivity | lia | lia | simpl; lia].
Defined.

(** X3. An integer close column that never rises gives no signal at
    all: when the close values are integers [z] with [|z| * w < 2^53]
    (so that the float64 sums of the rolling mean are exact) and every
    value is at most the values before it, the signal is 0 on every row. *)
Theorem non_increasing_never_signals (zs : list Z) (w : nat) :
  (forall z, z ∈ zs -> (Z.abs z * Z.of_nat w < 2 ^ 53)%Z) ->
  (forall i j p q, i <= j -> zs !! i = Some p -> zs !! j = Some q -> (q <= p)%Z) ->
  signal (map (fun z => Val (inject_Z z)) zs)
         (rolling_mean w (map (fun z => Val (inject_Z z)) zs)) =
    replicate (length zs) 0%Z.
Proof.
  intros _ Hmono.
  rewrite <- (length_map (fun z => Val (inject_Z z)) zs).
  apply signal_all_zero. intros i p q Hp Hq.
  apply window_at_lookup in Hq as (j & _ & Hji & Hj).
  rewrite list_lookup_fmap in Hp, Hj.
  destruct (zs !! i) as [zp|] eqn:Hzp; [|discriminate].
  destruct (zs !! j) as [zq|] eqn:Hzq; [|discriminate].
  injection Hp as <-. injection Hj as <-.
  rewrite <- Zle_Qle. exact (Hmono j i zq zp Hji Hzq Hzp).
Qed.

Lemma non_increasing_never_signals_witness :
  signal (map (fun z => Val (inject_Z z)) [3; 3]%Z)
         (rolling_mean 2 (map (fun z => Val (inject_Z z)) [3; 3]%Z)) = [0; 0]%Z.
Proof.
  apply (non_increasing_never_signals [3; 3]%Z 2).
  - intros z Hz. repeat (apply elem_of_cons in Hz as [->|Hz]; [reflexivity|]).
    inversion Hz.
  - intros i j p q _ Hi Hj.
    destruct i as [|[|i]], j as [|[|j]]; try discriminate;
      injection Hi as <-; injection Hj as <-; lia.
Defined.

(** X4. With window 1 every row is compared with itself: the signal is 0
    on every row and, on a non-empty column, the signal rate is 0. *)
Theorem window_one_never_signals (close : list cell) :
  signal close (rolling_mean 1 close) = replicate (length close) 0%Z /\
  (0 < length close -> signal_rate 1 close = Val 0).
Proof.
  assert (Hsig : signal close (rolling_mean 1 close) = replicate (length close) 0%Z).
  { apply signal_all_zero. intros i p q Hp Hq.
    apply window_at_lookup in Hq as (j & Hlo & Hhi & Hj).
    assert (j = i) as -> by lia. rewrite Hp in Hj. injection Hj as ->.
    apply Qle_refl. }
  split; [exact Hsig|]. intros Hlen.
  unfold signal_rate. rewrite Hsig. apply int_mean_zeros, Hlen.
Qed.

Lemma window_one_never_signals_witness :
  signal_rate 1 [Val 5; Val 7] = Val 0.
Proof.
  apply (window_one_never_signals [Val 5; Val 7]). simpl. lia.
Defined.

Lemma observations_all_val (win : list cell) :
  Forall (fun c => exists q, c = Val q) win ->
  length (observations win) = length win.
Proof.
  induction 1 as [|c win [q ->] _ IH]; [reflexivity|].
  simpl. f_equal. exact IH.
Qed.

(** In exact arithmetic a strictly increasing column signals on every
    row from [w - 1] on. *)
Lemma signal_increasing_exact (qs : list Q) (w : nat) :
  2 <= w -> w <= length qs ->
  (forall i j p q, i < j -> qs !! i = Some p -> qs !! j = Some q -> (p < q)%Q) ->
  signal (map Val qs) (rolling_mean w (map Val qs)) =
    replicate (w - 1) 0%Z ++ replicate (length qs - (w - 1)) 1%Z /\
  signal_rate w (map Val qs) =
    Val (Qmean (inject_Z (Z.of_nat (length qs - (w - 1)))) (length qs)).
Proof.
  intros Hw Hn Hinc.
  set (close := map Val qs).
  assert (Hlen : length close = length qs) by apply length_map.
  assert (Hsig : signal close (rolling_mean w close) =
                 replicate (w - 1) 0%Z ++ replicate (length qs - (w - 1)) 1%Z).
  { apply list_eq. intros i.
    destruct (decide (i < length qs)) as [Hi|Hi].
    - destruct (lookup_lt_is_Some_2 qs i Hi) as [p Hp].
      assert (Hc : close !! i = Some (Val p)).
      { unfold close. rewrite list_lookup_fmap, Hp. reflexivity. }
      rewrite (signal_lookup_total _ _ _ _ Hc).
      destruct (decide (i < w - 1)) as [Hwarm|Hrun].
      + rewrite lookup_app_l by (rewrite length_replicate; exact Hwarm).
        rewrite lookup_replicate_2 by exact Hwarm.
        rewrite roll_mean_short; [reflexivity|].
        rewrite window_at_length by lia. lia.
      + rewrite lookup_app_r by (rewrite length_replicate; lia).
        rewrite length_replicate, lookup_replicate_2 by lia.
        f_equal.
        assert (Hwin : forall c, c ∈ window_at w i close ->
                         exists j q, j <= i /\ qs !! j = Some q /\ c = Val q).
        { intros c Hin. apply window_at_lookup in Hin as (j & _ & Hji & Hj).
          unfold close in Hj. rewrite list_lookup_fmap in Hj.
          destruct (qs !! j) as [q|] eqn:Hq; [|discriminate].
          injection Hj as <-. eauto. }
        assert (Hfull : length (observations (window_at w i close)) = w).
        { rewrite observations_all_val.
          - rewrite window_at_length by lia. lia.
          - apply Forall_forall. intros c Hin.
            destruct (Hwin c Hin) as (j & q & _ & _ & ->). eauto. }
        destruct (roll_mean w (window_at w i close)) as [|m] eqn:Hm.
        { unfold roll_mean in Hm. rewrite Hfull in Hm.
          replace (w <=? w) with true in Hm by (symmetry; apply Nat.leb_le; lia).
          replace (0 <? w) with true in Hm by (symmetry; apply Nat.ltb_lt; lia).
          discriminate. }
        assert (Hlt : (m < p)%Q).
        { eapply roll_mean_lt; [exact Hm | |].
          - intros q Hq. destruct (Hwin _ Hq) as (j & q' & Hji & Hj & [= ->]).
            destruct (decide (j = i)) as [->|Hne].
            + rewrite Hp in Hj. injection Hj as ->. apply Qle_refl.
            + apply Qlt_le_weak. apply (Hinc j i q' p); [lia | exact Hj | exact Hp].
          - destruct (lookup_lt_is_Some_2 qs (i - 1)) as [q Hq]; [lia|].
            exists q. split.
            + apply window_at_lookup. exists (i - 1). split; [lia|]. split; [lia|].
              unfold close. rewrite list_lookup_fmap, Hq. reflexivity.
            + apply (Hinc (i - 1) i q p); [lia | exact Hq | exact Hp]. }
        simpl. destruct (Qle_bool p m) eqn:Hle; [|reflexivity].
        apply Qle_bool_iff in Hle. destruct (Qlt_not_le _ _ Hlt Hle).
    - rewrite !lookup_ge_None_2; [reflexivity | |].
      + rewrite length_app, !length_replicate. lia.
      + rewrite signal_rm_length, Hlen. lia. }
  split; [exact Hsig|].
  unfold signal_rate. fold close. rewrite Hsig.
  rewrite int_mean_nonempty by (rewrite length_app, !length_replicate; lia).
  rewrite Zsum_app, Zsum_zeros, Zsum_ones, length_app, !length_replicate.
  replace (w - 1 + (length qs - (w - 1))) with (length qs) by lia.
  reflexivity.
Qed.

(** X5. On a strictly increasing integer close column with a window of
    at least 2 rows, every row from [w - 1] on is signalled: when the
    close values are integers [z] with [|z| * w < 2^53] (so that the
    float64 sums of the rolling mean are exact), the signal is [w - 1]
    zeros followed by ones. *)
Theorem increasing_signals_after_warmup (zs : list Z) (w : nat) :
  2 <= w -> w <= length zs ->
  (forall z, z ∈ zs -> (Z.abs z * Z.of_nat w < 2 ^ 53)%Z) ->
  (forall i j p q, i < j -> zs !! i = Some p -> zs !! j = Some q -> (p < q)%Z) ->
  signal (map (fun z => Val (inject_Z z)) zs)
         (rolling_mean w (map (fun z => Val (inject_Z z)) zs)) =
    replicate (w - 1) 0%Z ++ replicate (length zs - (w - 1)) 1%Z.
Proof.
  intros Hw Hn _ Hinc.
  assert (Hmap : map (fun z => Val (inject_Z z)) zs = map Val (map inject_Z zs)).
  { rewrite <- list_fmap_compose. reflexivity. }
  rewrite Hmap.
  destruct (signal_increasing_exact (map inject_Z zs) w) as [Hsig _].
  - exact Hw.
  - rewrite length_map. exact Hn.
  - intros i j p q Hij Hp Hq. rewrite list_lookup_fmap in Hp, Hq.
    destruct (zs !! i) as [zp|] eqn:Hzp; [|discriminate].
    destruct (zs !! j) as [zq|] eqn:Hzq; [|discriminate].
    injection Hp as <-. injection Hq as <-.
    rewrite <- Zlt_Qlt. exact (Hinc i j zp zq Hij Hzp Hzq).
  - rewrite Hsig, length_map. reflexivity.
Qed.

Lemma increasing_signals_after_warmup_witness :
  signal (map (fun z => Val (inject_Z z)) [1; 2; 4; 8]%Z)
         (rolling_mean 2 (map (fun z => Val (inject_Z z)) [1; 2; 4; 8]%Z)) =
    [0; 1; 1; 1]%Z.
Proof.
  apply (increasing_signals_after_warmup [1; 2; 4; 8]%Z 2); [lia | simpl; lia | |].
  - intros z Hz. repeat (apply elem_of_cons in Hz as [->|Hz]; [reflexivity|]).
    inversion Hz.
  - intros i j p q Hij Hi Hj.
    destruct i as [|[|[|[|i]]]]; try discriminate; injection Hi as <-;
      destruct j as [|[|[|[|j]]]]; try discriminate; try lia; injection Hj as <-;
      reflexivity.
Defined.



(** ** Rounding and truncation *)

Section Rounding.



Lemma py_int_nonneg (q : Q) : (0 <= q)%Q -> py_int q = Qfloor q.
Proof.
  destruct q as [n d]. unfold Qle, py_int, Qfloor. simpl.
  intros Hn. apply Z.quot_div_nonneg; lia.
Qed.

Lemma py_int_nonpos (q : Q) : (q <= 0)%Q -> py_int q = (- Qfloor (- q))%Z.
Proof.
  destruct q as [n d]. unfold Qle, py_int, Qfloor. simpl.
  intros Hn. rewrite <- (Z.quot_div_nonneg (- n) (Z.pos d)) by lia.
  rewrite Z.quot_opp_l by lia. lia.
Qed.

(** [int(x)] drops the fractional part, towards zero. *)
Lemma py_int_truncates (q : Q) :
  ((0 <= q)%Q ->
     (0 <= py_int q)%Z /\ (inject_Z (py_int q) <= q)%Q /\
     (q < inject_Z (py_int q) + 1)%Q) /\
  ((q <= 0)%Q ->
     (py_int q <= 0)%Z /\ (q <= inject_Z (py_int q))%Q /\
     (inject_Z (py_int q) - 1 < q)%Q).
Proof.
  split; intros Hq.
  - rewrite py_int_nonneg by exact Hq. split; [|split].
    + rewrite <- (Qfloor_Z 0). apply Qfloor_resp_le, Hq.
    + apply Qfloor_le.
    + pose proof (Qlt_floor q) as H. rewrite inject_Z_plus in H. exact H.
  - rewrite py_int_nonpos by exact Hq.
    assert (Hneg : (0 <= - q)%Q) by lra.
    pose proof (Qfloor_le (- q)) as Hlo. pose proof (Qlt_floor (- q)) as Hhi.
    rewrite inject_Z_plus in Hhi. change (inject_Z 1) with 1%Q in Hhi.
    assert (H0 : (0 <= Qfloor (- q))%Z).
    { rewrite <- (Qfloor_Z 0). apply Qfloor_resp_le, Hneg. }
    rewrite inject_Z_opp. split; [lia|]. split; lra.
Qed.

End Rounding.

(** ** Reports of a run *)

Section Reports.

Lemma load_config_inv (env : Env) (path : string) (cfg : yaml) :
  load_config env path = Ok cfg ->
  path_exists env path = true /\ yaml_safe_load env path = Ok cfg /\
  check_keys required_keys cfg = Ok ().
Proof.
  unfold load_config. destruct (path_exists env path); [|discriminate].
  cbn [negb]. destruct (yaml_safe_load env path) as [c|e]; [|discriminate].
  cbn [mbind result_bind].
  destruct (check_keys required_keys c) as [[]|e] eqn:Hkeys; [|discriminate].
  intros [= <-]. auto.
Qed.

Lemma rolling_window_inv (window : yaml) (w : nat) :
  rolling_window window = Ok w ->
  exists z : Z, window = YInt z /\ (0 <= z < 2 ^ 63)%Z /\ w = Z.to_nat z.
Proof.
  destruct window as [| |z| | | | |]; try discriminate. simpl.
  destruct (z <? 0)%Z eqn:Hneg; [discriminate|].
  destruct (2 ^ 63 <=? z)%Z eqn:Hbig; [discriminate|].
  intros [= <-]. exists z. apply Z.ltb_ge in Hneg. apply Z.leb_gt in Hbig.
  split; [reflexivity|]. split; [lia | reflexivity].
Qed.

End Reports.




(** ** C9: one rounded value *)



(** X8. On a run that ends with status 0, latency_ms is the elapsed time
    in milliseconds with its fractional part dropped, towards zero: between
    the elapsed time minus one and the elapsed time when the clock moved
    forward, and between the elapsed time and the elapsed time plus one
    when it moved backward. *)
Theorem latency_truncated (env : Env) (args : Args) (t0 t1 : Q) (st : State) :
  main env args t0 t1 = (0%Z, st) ->
  exists m : MetricsResult,
    out_file st = Some (Complete (SuccessDoc m)) /\
    LogCompleted (latency_ms m) ∈ log st /\
    let elapsed := ((t1 - t0) * 1000)%Q in
    ((t0 <= t1)%Q ->
       (0 <= latency_ms m)%Z /\ (inject_Z (latency_ms m) <= elapsed)%Q /\
       (elapsed < inject_Z (latency_ms m) + 1)%Q) /\
    ((t1 <= t0)%Q ->
       (latency_ms m <= 0)%Z /\ (elapsed <= inject_Z (latency_ms m))%Q /\
       (inject_Z (latency_ms m) - 1 < elapsed)%Q).
Proof.
  intros Hmain.
  destruct (main_success_inv _ _ _ _ _ Hmain)
    as (seed & window & version & df & w & xs & _ & ->).
  exists (metrics_of seed version df w xs t0 t1).
  split; [reflexivity|]. split; [simpl; set_solver|].
  cbn [metrics_of latency_ms]. cbv zeta.
  change (inject_Z 1000) with 1000%Q.
  destruct (py_int_truncates ((t1 - t0) * 1000)) as [Hpos Hneg].
  split; intros Ht; [apply Hpos | apply Hneg]; lra.
Qed.

Lemma latency_truncated_witness :
  exists m : MetricsResult,
    out_file (main close5_env sample_args 10 (21 # 2)).2 =
      Some (Complete (SuccessDoc m)) /\
    (0 <= latency_ms m)%Z.
Proof.
  destruct (latency_truncated close5_env sample_args 10 (21 # 2)
              (main close5_env sample_args 10 (21 # 2)).2 eq_refl)
    as (m & Hout & _ & Hfwd & _).
  exists m. split; [exact Hout|]. apply Hfwd. discriminate.
Defined.

(** X9. The result of a run that ends with status 0 echoes its inputs:
    version and seed are the values under these keys in the parsed config,
    rows_processed is the number of rows of the parsed table, metric is
    "signal_rate" and status is "success". *)
Theorem success_report_fields (env : Env) (args : Args) (t0 t1 : Q) (st : State) :
  main env args t0 t1 = (0%Z, st) ->
  exists (m : MetricsResult) (cfg : yaml) (df : DataFrame),
    out_file st = Some (Complete (SuccessDoc m)) /\
    yaml_safe_load env (config args) = Ok cfg /\
    read_csv env (input args) = Ok df /\
    getitem cfg "version" = Ok (version m) /\
    getitem cfg "seed" = Ok (seed m) /\
    rows_processed m = nrows df /\
    metric m = "signal_rate" /\
    status m = "success".
Proof.
  intros Hmain.
  destruct (main_success_inv _ _ _ _ _ Hmain)
    as (seed & window & version & df & w & xs & Hok & ->).
  destruct Hok as (cfg & close & Hcfg & Hseed & _ & Hversion & _ & Hdf & _).
  apply load_config_inv in Hcfg as (_ & Hload & _).
  apply load_data_inv in Hdf as (_ & Hread & _).
  exists (metrics_of seed version df w xs t0 t1), cfg, df.
  repeat split; assumption.
Qed.

Lemma success_report_fields_witness :
  exists m : MetricsResult,
    out_file (main close5_env sample_args 0 1).2 = Some (Complete (SuccessDoc m)) /\
    rows_processed m = 5 /\ status m = "success".
Proof.
  destruct (success_report_fields close5_env sample_args 0 1
              (main close5_env sample_args 0 1).2 eq_refl)
    as (m & cfg & df & Hout & _ & Hread & _ & _ & Hrows & _ & Hstatus).
  exists m. injection Hread as <-. auto.
Defined.

(** X10. Every run ends with status 0 or 1 and leaves exactly one complete
    document in the output file, the same one it prints: a result with
    status "success" when the exit status is 0, an error report with
    version "v1" and status "error" when it is 1. *)
Theorem one_document (env : Env) (args : Args) (t0 t1 : Q) :
  exists d : document,
    out_file (main env args t0 t1).2 = Some (Complete d) /\
    stdout (main env args t0 t1).2 = [d] /\
    (((main env args t0 t1).1 = 0%Z /\
      exists m, d = SuccessDoc m /\ status m = "success") \/
     ((main env args t0 t1).1 = 1%Z /\
      exists e, d = ErrorDoc e /\ err_version e = "v1" /\ err_status e = "error")).
Proof.
  destruct (main_cases env args)
    as [(e & st & Hout & H) | (seed & window & version & df & w & xs & _ & H)].
  - destruct (H t0 t1) as [_ ->]. exists (ErrorDoc (error_output e)).
    split; [reflexivity|]. split; [simpl; rewrite Hout; reflexivity|].
    right. split; [reflexivity|]. eauto.
  - rewrite (H t0 t1). eexists. split; [reflexivity|]. split; [reflexivity|].
    left. split; [reflexivity|]. eauto.
Qed.

Section FailureShape.

Ltac shape_branch k :=
  intros Htry; revert Htry; unfold try_block; eval_run;
  intros [= <- <-]; exists YNull, YNull, YNull, 0, k;
  (split; [reflexivity|]); (split; [lia|]); (split; [reflexivity|]);
  left; reflexivity.

(** Where a failing [try] block stops: after 1, 2, 3 or 5 milestone lines,
    with nothing printed and the output file untouched or incomplete. *)
Lemma try_block_failure_shape (env : Env) (args : Args) (t0 t1 : Q)
    (e : error) (st : State) :
  try_block env args t0 t1 initial_state = (Raised e, st) ->
  exists (seed window version : yaml) (rows k : nat),
    log st = take k (milestones seed window version rows) /\
    (k = 1 \/ k = 2 \/ k = 3 \/ k = 5) /\
    stdout st = [] /\
    (out_file st = None \/ (k = 5 /\ out_file st = Some Partial)).
Proof.
  destruct (load_config env (config args)) as [cfg|e'] eqn:Hcfg; [|shape_branch 1].
  destruct (getitem cfg "seed") as [seed|e'] eqn:Hseed; [|shape_branch 1].
  destruct (getitem cfg "window") as [window|e'] eqn:Hwindow; [|shape_branch 1].
  destruct (getitem cfg "version") as [version|e'] eqn:Hversion; [|shape_branch 1].
  destruct (np_random_seed seed) as [[]|e'] eqn:Hnp; [|shape_branch 1].
  destruct (load_data env (input args)) as [df|e'] eqn:Hdf.
  2:{ rewrite (data_failure env args cfg seed window version e' t0 t1) by assumption.
      intros [= <- <-]. exists seed, window, version, 0, 2.
      split; [reflexivity|]. split; [lia|]. split; [reflexivity|]. left. reflexivity. }
  pose proof (load_data_inv _ _ _ Hdf) as (_ & _ & _ & [close Hclose]).
  destruct (rolling_mean_column close window) as [rm|e'] eqn:Hrm.
  2:{ rewrite (transform_failure env args cfg seed window version df close e' t0 t1)
        by assumption.
      intros [= <- <-]. exists seed, window, version, (len df), 3.
      split; [reflexivity|]. split; [lia|]. split; [reflexivity|]. left. reflexivity. }
  assert (exists w xs, rolling_window window = Ok w /\ as_float close = Ok xs)
    as (w & xs & Hw & Hxs).
  { unfold rolling_mean_column in Hrm.
    destruct (rolling_window window) as [w|]; [|discriminate].
    destruct (as_float close) as [xs|]; [|discriminate]. eauto. }
  destruct (json_ok version) eqn:Hjv.
  - rewrite (try_block_success env args seed window version df w xs t0 t1).
    + discriminate.
    + exists cfg, close. tauto.
  - rewrite (dump_failure env args seed window version df w xs cfg close t0 t1)
      by assumption.
    intros [= <- <-]. exists seed, window, version, (len df), 5.
    split; [reflexivity|]. split; [lia|]. split; [reflexivity|]. right. auto.
Qed.

End FailureShape.

(** X11. The log of a run follows the milestones in order: "Job started",
    "Config loaded", "Data loaded", "Rolling mean calculated", "Signals
    generated".  A run with status 0 has all five, then the metrics line
    and the completion line; a run with status 1 has the first [k] of
    them, for some [k] from 1 to 5, and then a single error line, whose
    message is the error_message of the report. *)
Theorem log_order (env : Env) (args : Args) (t0 t1 : Q) :
  exists (seed window version : yaml) (rows : nat),
    ((main env args t0 t1).1 = 0%Z /\
     exists (v : cell) (l : Z),
       log (main env args t0 t1).2 =
         milestones seed window version rows ++ [LogMetrics v rows; LogCompleted l]) \/
    ((main env args t0 t1).1 = 1%Z /\
     exists (k : nat) (e : ErrorResult),
       1 <= k <= 5 /\
       log (main env args t0 t1).2 =
         take k (milestones seed window version rows) ++ [LogError (error_message e)] /\
       out_file (main env args t0 t1).2 = Some (Complete (ErrorDoc e))).
Proof.
  destruct (main_cases env args)
    as [(e & st & _ & H) | (seed & window & version & df & w & xs & _ & H)].
  - destruct (H t0 t1) as [Htry ->].
    destruct (try_block_failure_shape _ _ _ _ _ _ Htry)
      as (seed & window & version & rows & k & Hlog & Hk & _).
    exists seed, window, version, rows. right. split; [reflexivity|].
    exists k, (error_output e). split; [lia|].
    split; [|reflexivity]. simpl. rewrite Hlog. reflexivity.
  - rewrite (H t0 t1). exists seed, window, version, (len df). left.
    split; [reflexivity|]. eexists _, _. reflexivity.
Qed.

Section ConfigFailures.

Lemma check_keys_missing (cfg : list (string * yaml)) (pre post : list string)
    (key : string) :
  Forall (fun k => is_Some (assoc k cfg)) pre ->
  assoc key cfg = None ->
  check_keys (pre ++ key :: post) (YMap cfg) = Raise (missing_field key).
Proof.
  intros Hpre Hkey. induction Hpre as [|k pre Hk _ IH]; simpl.
  - rewrite bool_decide_eq_false_2; [reflexivity|].
    rewrite Hkey. intros [? ?]; discriminate.
  - rewrite bool_decide_eq_true_2 by exact Hk. exact IH.
Qed.

Lemma check_keys_error (keys : list string) (cfg : yaml) (e : error) :
  check_keys keys cfg = Raise e ->
  (exists key, key ∈ keys /\ contains key cfg = Ok false /\ e = missing_field key) \/
  (err_class e = TypeError /\ forall key, contains key cfg = Raise e).
Proof.
  induction keys as [|key keys IH]; simpl; [discriminate|].
  destruct (contains key cfg) as [[|]|e'] eqn:Hc; simpl.
  - intros H. destruct (IH H) as [(k & Hk & Hrest)|Hty]; [left|right; exact Hty].
    exists k. split; [by right | exact Hrest].
  - intros [= <-]. left. exists key. split; [by left|]. auto.
  - intros [= <-]. right.
    destruct cfg; simpl in Hc; try discriminate;
      injection Hc as <-; split; reflexivity.
Qed.

End ConfigFailures.

(** X12. When the config is a mapping that lacks a required key, the job
    ends with status 1 and reports "Missing required config field: k" for
    the first missing key k in the order seed, window, version; the log
    has only the start line and the error line. *)
Theorem missing_key_report (env : Env) (args : Args) (cfg : list (string * yaml))
    (pre post : list string) (key : string) (t0 t1 : Q) :
  path_exists env (config args) = true ->
  yaml_safe_load env (config args) = Ok (YMap cfg) ->
  required_keys = pre ++ key :: post ->
  Forall (fun k => is_Some (assoc k cfg)) pre ->
  assoc key cfg = None ->
  main env args t0 t1 =
    (1%Z,
     mkState [LogJobStarted; LogError ("Missing required config field: " +:+ key)]
             (Some (Complete (ErrorDoc (error_output (missing_field key)))))
             [ErrorDoc (error_output (missing_field key))]).
Proof.
  intros Hex Hload Hkeys Hpre Hkey.
  rewrite (main_raised env args t0 t1 (missing_field key) initial_state);
    [reflexivity|].
  apply config_failure. unfold load_config. rewrite Hex, Hload.
  cbn [negb mbind result_bind].
  rewrite Hkeys, (check_keys_missing cfg pre post key Hpre Hkey). reflexivity.
Qed.

Lemma missing_key_report_witness :
  (main (sample_env (Ok (YMap [("seed", YInt 1); ("version", YStr "v1")]))
                    (Ok (sample_table [1; 2]%Z)))
        sample_args 0 1).1 = 1%Z.
Proof.
  rewrite (missing_key_report
             (sample_env (Ok (YMap [("seed", YInt 1); ("version", YStr "v1")]))
                         (Ok (sample_table [1; 2]%Z)))
             sample_args [("seed", YInt 1); ("version", YStr "v1")]
             ["seed"] ["version"] "window" 0 1 eq_refl eq_refl eq_refl).
  - reflexivity.
  - repeat constructor. simpl. eauto.
  - reflexivity.
Defined.

(** X13. [load_config] fails in four ways only: the not-found error when
    the path does not exist; otherwise the error of the YAML loader,
    unchanged; otherwise a TypeError when the parsed value is not a
    mapping, a sequence or a string; otherwise the missing-field error for
    a required key the value does not contain. *)
Theorem load_config_errors (env : Env) (path : string) (e : error) :
  load_config env path = Raise e ->
  (path_exists env path = false /\
   e = Error FileNotFoundError "Configuration file not found.") \/
  (path_exists env path = true /\ yaml_safe_load env path = Raise e) \/
  (path_exists env path = true /\
   exists cfg : yaml,
     yaml_safe_load env path = Ok cfg /\
     ((err_class e = TypeError /\
       (forall m, cfg <> YMap m) /\ (forall l, cfg <> YSeq l) /\
       (forall s, cfg <> YStr s)) \/
      (exists key, key ∈ required_keys /\ contains key cfg = Ok false /\
                   e = missing_field key))).
Proof.
  unfold load_config. destruct (path_exists env path).
  - cbn [negb]. destruct (yaml_safe_load env path) as [cfg|e'] eqn:Hload.
    + cbn [mbind result_bind].
      destruct (check_keys required_keys cfg) as [[]|e'] eqn:Hkeys; [discriminate|].
      intros [= <-]. right. right. split; [reflexivity|]. exists cfg.
      split; [reflexivity|].
      destruct (check_keys_error _ _ _ Hkeys) as [Hmiss|[Hty Hall]].
      * right. exact Hmiss.
      * left. split; [exact Hty|]. specialize (Hall "seed").
        repeat split; intros ? ->; discriminate.
    + intros [= <-]. right. left. auto.
  - intros [= <-]. left. auto.
Qed.

Lemma load_config_errors_witness :
  exists cfg : yaml,
    yaml_safe_load (sample_env (Ok YNull) (Ok (sample_table [1]%Z))) "config.yaml" = Ok cfg /\
    forall m, cfg <> YMap m.
Proof.
  destruct (load_config_errors (sample_env (Ok YNull) (Ok (sample_table [1]%Z)))
              "config.yaml"
              (Error TypeError "argument of type 'NoneType' is not iterable") eq_refl)
    as [[H _] | [[_ H] | [_ (cfg & Hload & [(_ & Hm & _) | (k & _ & H & _)])]]];
    try discriminate.
  - exists cfg. auto.
  - injection Hload as <-. discriminate.
Defined.

(** X14. A config that is a sequence holding the three key names passes
    [load_config], which only tests membership; the job then fails on
    [config["seed"]] with a TypeError, before anything but the start line
    is logged, and ends with status 1. *)
Theorem sequence_config_fails_late (env : Env) (args : Args) (l : list yaml)
    (t0 t1 : Q) :
  path_exists env (config args) = true ->
  yaml_safe_load env (config args) = Ok (YSeq l) ->
  YStr "seed" ∈ l -> YStr "window" ∈ l -> YStr "version" ∈ l ->
  load_config env (config args) = Ok (YSeq l) /\
  exists e : error,
    err_class e = TypeError /\
    main env args t0 t1 =
      (1%Z, mkState [LogJobStarted; LogError (str e)]
                    (Some (Complete (ErrorDoc (error_output e))))
                    [ErrorDoc (error_output e)]).
Proof.
  intros Hex Hload Hs Hw Hv.
  assert (Hin : forall key, YStr key ∈ l -> existsb (is_str key) l = true).
  { intros key Hkey. apply existsb_exists. exists (YStr key).
    split; [apply list_elem_of_In, Hkey|]. simpl. apply bool_decide_eq_true_2.
    reflexivity. }
  assert (Hcfg : load_config env (config args) = Ok (YSeq l)).
  { unfold load_config. rewrite Hex, Hload. cbn [negb mbind result_bind].
    cbn [check_keys required_keys contains mbind result_bind].
    rewrite !Hin by assumption. reflexivity. }
  split; [exact Hcfg|].
  exists (Error TypeError "list indices must be integers or slices, not str").
  split; [reflexivity|].
  rewrite (main_raised env args t0 t1
             (Error TypeError "list indices must be integers or slices, not str")
             initial_state); [reflexivity|].
  unfold try_block. eval_run. reflexivity.
Qed.

Lemma sequence_config_fails_late_witness :
  load_config
    (sample_env (Ok (YSeq [YStr "seed"; YStr "window"; YStr "version"]))
                (Ok (sample_table [1; 2]%Z)))
    "config.yaml" = Ok (YSeq [YStr "seed"; YStr "window"; YStr "version"]).
Proof.
  apply (sequence_config_fails_late
           (sample_env (Ok (YSeq [YStr "seed"; YStr "window"; YStr "version"]))
                       (Ok (sample_table [1; 2]%Z)))
           sample_args [YStr "seed"; YStr "window"; YStr "version"] 0 1
           eq_refl eq_refl); set_solver.
Defined.

Section AfterConfig.

Variables (env : Env) (args : Args) (cfg seed window version : yaml).

Hypothesis config_loaded : load_config env (config args) = Ok cfg.
Hypothesis config_seed : getitem cfg "seed" = Ok seed.
Hypothesis config_window : getitem cfg "window" = Ok window.
Hypothesis config_version : getitem cfg "version" = Ok version.
Hypothesis seed_accepted : np_random_seed seed = Ok ().

Lemma load_data_error (path : string) (e : error) :
  load_data env path = Raise e ->
  e ∈ [Error FileNotFoundError "Input CSV file not found.";
       Error ValueError "Invalid CSV file format.";
       Error ValueError "Input CSV file is empty.";
       Error ValueError "Required column 'close' is missing."].
Proof.
  unfold load_data. destruct (path_exists env path); cbn [negb].
  - destruct (read_csv env path) as [df|e'].
    + destruct (empty df); [intros [= <-]; set_solver|].
      destruct (has_column "close" df); cbn [negb]; [discriminate|].
      intros [= <-]. set_solver.
    + intros [= <-]. set_solver.
  - intros [= <-]. set_solver.
Qed.

(** X15. When the config loads and the seed is accepted but the data
    loader fails, the job ends with status 1; the log has the start line,
    the config line and the error line, and the reported message is one of
    the loader's four fixed messages (the parser's own message is never
    reported). *)
Theorem data_loader_reports (e : error) (t0 t1 : Q) :
  load_data env (input args) = Raise e ->
  main env args t0 t1 =
    (1%Z, mkState [LogJobStarted; LogConfigLoaded seed window version;
                   LogError (str e)]
                  (Some (Complete (ErrorDoc (error_output e))))
                  [ErrorDoc (error_output e)]) /\
  str e ∈ ["Input CSV file not found."; "Invalid CSV file format.";
           "Input CSV file is empty."; "Required column 'close' is missing."].
Proof.
  intros Hdf. split.
  - rewrite (main_raised env args t0 t1 e
               (mkState [LogJobStarted; LogConfigLoaded seed window version] None []));
      [reflexivity|].
    apply (data_failure env args cfg); assumption.
  - apply load_data_error in Hdf.
    repeat (apply elem_of_cons in Hdf as [->|Hdf]; [set_solver|]).
    inversion Hdf.
Qed.

(** X17. When everything up to the metrics goes through but the version
    cannot be serialised to JSON, the job ends with status 1 after all
    five milestone lines; the incomplete output file is overwritten by the
    error report. *)
Theorem unserialisable_version_report (df : DataFrame) (close : column)
    (w : nat) (xs : list cell) (t0 t1 : Q) :
  load_data env (input args) = Ok df ->
  cols df !! "close" = Some close ->
  rolling_window window = Ok w ->
  as_float close = Ok xs ->
  json_ok version = false ->
  exists e : error,
    err_class e = TypeError /\
    try_block env args t0 t1 initial_state =
      (Raised e,
       mkState (milestones seed window version (len df)) (Some Partial) []) /\
    main env args t0 t1 =
      (1%Z, mkState (milestones seed window version (len df) ++
                     [LogError (str e)])
                    (Some (Complete (ErrorDoc (error_output e))))
                    [ErrorDoc (error_output e)]).
Proof.
  intros Hdf Hclose Hw Hxs Hjv.
  assert (Htry : try_block env args t0 t1 initial_state =
                 (Raised dump_error,
                  mkState (milestones seed window version (len df)) (Some Partial) [])).
  { apply (dump_failure env args seed window version df w xs cfg close);
      assumption. }
  exists dump_error. split; [reflexivity|].
  split; [exact Htry|]. rewrite (main_raised _ _ _ _ _ _ Htry). reflexivity.
Qed.

End AfterConfig.

Lemma data_loader_reports_witness :
  (main no_input_env sample_args 0 1).1 = 1%Z.
Proof.
  destruct (data_loader_reports no_input_env sample_args
              (YMap [("seed", YInt 42); ("window", YInt 3); ("version", YStr "v2")])
              (YInt 42) (YInt 3) (YStr "v2") eq_refl eq_refl eq_refl eq_refl eq_refl
              (Error FileNotFoundError "Input CSV file not found.") 0 1 eq_refl)
    as [-> _].
  reflexivity.
Defined.

Lemma unserialisable_version_report_witness :
  (main dated_env sample_args 0 1).1 = 1%Z.
Proof.
  destruct (unserialisable_version_report dated_env sample_args
              (YMap [("seed", YInt 42); ("window", YInt 2);
                     ("version", YTimestamp "2024-01-01")])
              (YInt 42) (YInt 2) (YTimestamp "2024-01-01")
              eq_refl eq_refl eq_refl eq_refl eq_refl
              (sample_table [1; 2; 3]%Z) (IntCol [1; 2; 3]%Z) 2
              [Val 1; Val 2; Val 3] 0 1 eq_refl eq_refl eq_refl eq_refl eq_refl)
    as (e & _ & _ & ->).
  reflexivity.
Defined.

(** X18. A mapping config whose seed is an integer outside [0, 2**32) is
    rejected by [np.random.seed] before the input file is looked at: the
    job ends with status 1 and the seed error, with only the start line
    and the error line in the log, whatever the window and the input. *)
Theorem seed_out_of_range_report (env : Env) (args : Args)
    (cfg : list (string * yaml)) (s : Z) (window version : yaml) (t0 t1 : Q) :
  path_exists env (config args) = true ->
  yaml_safe_load env (config args) = Ok (YMap cfg) ->
  assoc "seed" cfg = Some (YInt s) ->
  assoc "window" cfg = Some window ->
  assoc "version" cfg = Some version ->
  (s < 0 \/ 2 ^ 32 <= s)%Z ->
  main env args t0 t1 =
    (1%Z, mkState [LogJobStarted; LogError (str seed_error)]
                  (Some (Complete (ErrorDoc (error_output seed_error))))
                  [ErrorDoc (error_output seed_error)]).
Proof.
  intros Hex Hload Hseed Hwindow Hversion Hs.
  assert (Hcfg : load_config env (config args) = Ok (YMap cfg)).
  { apply load_config_map; [exact Hex | exact Hload |].
    repeat constructor; [rewrite Hseed | rewrite Hwindow | rewrite Hversion]; eauto. }
  assert (Hg1 : getitem (YMap cfg) "seed" = Ok (YInt s)) by (simpl; by rewrite Hseed).
  assert (Hg2 : getitem (YMap cfg) "window" = Ok window) by (simpl; by rewrite Hwindow).
  assert (Hg3 : getitem (YMap cfg) "version" = Ok version) by (simpl; by rewrite Hversion).
  assert (Hnp : np_random_seed (YInt s) = Raise seed_error).
  { simpl. unfold seed_in_range.
    destruct (0 <=? s)%Z eqn:H0; [|reflexivity].
    destruct (s <? 2 ^ 32)%Z eqn:H1; [|reflexivity].
    apply Z.leb_le in H0. apply Z.ltb_lt in H1. lia. }
  rewrite (main_raised env args t0 t1 seed_error initial_state); [reflexivity|].
  unfold try_block. eval_run. reflexivity.
Qed.

Lemma seed_out_of_range_report_witness :
  (main (sample_env (Ok (YMap [("seed", YInt (-1)); ("window", YInt 3);
                               ("version", YStr "v1")]))
                    (Ok (sample_table [1; 2; 3]%Z)))
        sample_args 0 1).1 = 1%Z.
Proof.
  rewrite (seed_out_of_range_report
             (sample_env (Ok (YMap [("seed", YInt (-1)); ("window", YInt 3);
                                    ("version", YStr "v1")]))
                         (Ok (sample_table [1; 2; 3]%Z)))
             sample_args
             [("seed", YInt (-1)); ("window", YInt 3); ("version", YStr "v1")]
             (-1) (YInt 3) (YStr "v1") 0 1 eq_refl eq_refl eq_refl eq_refl eq_refl);
    [reflexivity | lia].
Defined.

(** ** Valid runs *)

Section ValidRun.

Variables (env : Env) (args : Args).
Variables (cfg : list (string * yaml)) (s wz : Z) (v : string).
Variables (df : DataFrame) (close : column) (xs : list cell).

Hypothesis config_exists : path_exists env (config args) = true.
Hypothesis config_parsed : yaml_safe_load env (config args) = Ok (YMap cfg).
Hypothesis config_seed : assoc "seed" cfg = Some (YInt s).
Hypothesis seed_range : (0 <= s < 2 ^ 32)%Z.
Hypothesis config_window : assoc "window" cfg = Some (YInt wz).
Hypothesis window_range : (0 <= wz < 2 ^ 63)%Z.
Hypothesis config_version : assoc "version" cfg = Some (YStr v).
Hypothesis input_exists : path_exists env (input args) = true.
Hypothesis input_parsed : read_csv env (input args) = Ok df.
Hypothesis input_rows : 0 < nrows df.
Hypothesis input_close : cols df !! "close" = Some close.
Hypothesis close_numeric : as_float close = Ok xs.

Lemma run_ok_intro :
  run_ok env args (YInt s) (YInt wz) (YStr v) df (Z.to_nat wz) xs.
Proof.
  exists (YMap cfg), close.
  split.
  { apply load_config_map; [exact config_exists | exact config_parsed |].
    repeat constructor;
      [rewrite config_seed | rewrite config_window | rewrite config_version]; eauto. }
  split; [simpl; rewrite config_seed; reflexivity|].
  split; [simpl; rewrite config_window; reflexivity|].
  split; [simpl; rewrite config_version; reflexivity|].
  split.
  { simpl. unfold seed_in_range.
    replace (0 <=? s)%Z with true by (symmetry; apply Z.leb_le; lia).
    replace (s <? 2 ^ 32)%Z with true by (symmetry; apply Z.ltb_lt; lia).
    reflexivity. }
  split.
  { apply load_data_ok; [exact input_exists | exact input_parsed | lia |].
    rewrite input_close. eauto. }
  split; [exact input_close|].
  split.
  { simpl.
    replace (wz <? 0)%Z with false by (symmetry; apply Z.ltb_ge; lia).
    replace (2 ^ 63 <=? wz)%Z with false by (symmetry; apply Z.leb_gt; lia).
    reflexivity. }
  split; [exact close_numeric | reflexivity].
Qed.

(** X19. A run succeeds whenever the config is a mapping with an integer
    seed in [0, 2**32), an integer window in [0, 2**63) and a string
    version, and the input parses to a table with at least one row and a
    numeric close column: status 0, the five milestone lines followed by
    the metrics line and the completion line, and a result, written and
    printed, with this version, this seed, the row count, the metric name
    "signal_rate" and the status "success". *)
Theorem valid_run_succeeds (t0 t1 : Q) :
  exists m : MetricsResult,
    main env args t0 t1 =
      (0%Z,
       mkState
         (milestones (YInt s) (YInt wz) (YStr v) (nrows df) ++
          [LogMetrics (value m) (nrows df); LogCompleted (latency_ms m)])
         (Some (Complete (SuccessDoc m)))
         [SuccessDoc m]) /\
    version m = YStr v /\ seed m = YInt s /\
    rows_processed m = nrows df /\
    metric m = "signal_rate" /\ status m = "success".
Proof.
  exists (metrics_of (YInt s) (YStr v) df (Z.to_nat wz) xs t0 t1).
  split; [|repeat split].
  rewrite (main_success env args _ _ _ _ _ _ t0 t1 run_ok_intro). reflexivity.
Qed.

(** X20. Window 0 is not an error: on a valid config with window 0 every
    rolling mean is undefined, every signal is 0 and the job ends with
    status 0 and reports the value 0.0. *)
Theorem window_zero_succeeds (t0 t1 : Q) :
  wz = 0%Z ->
  rolling_mean 0 xs = replicate (length xs) NaN /\
  signal xs (rolling_mean 0 xs) = replicate (length xs) 0%Z /\
  (0 < length xs -> signal_rate 0 xs = Val 0) /\
  exists st : State,
    main env args t0 t1 = (0%Z, st) /\
    exists m : MetricsResult,
      out_file st = Some (Complete (SuccessDoc m)) /\
      value m = round4 (signal_rate 0 xs).
Proof.
  intros Hz.
  assert (Hrm : rolling_mean 0 xs = replicate (length xs) NaN).
  { apply list_eq. intros i. destruct (decide (i < length xs)) as [Hi|Hi].
    - rewrite rolling_mean_lookup, lookup_replicate_2 by exact Hi.
      unfold window_at, window_bounds. rewrite Nat.sub_0_r, Nat.sub_diag.
      reflexivity.
    - rewrite !lookup_ge_None_2; [reflexivity | |].
      + rewrite length_replicate. lia.
      + rewrite rolling_mean_length. lia. }
  assert (Hsig : signal xs (rolling_mean 0 xs) = replicate (length xs) 0%Z).
  { rewrite Hrm. apply signal_all_nan. }
  split; [exact Hrm|]. split; [exact Hsig|]. split.
  { intros Hlen. unfold signal_rate. rewrite Hsig. apply int_mean_zeros, Hlen. }
  eexists. split.
  - apply (main_success env args _ _ _ _ _ _ t0 t1 run_ok_intro).
  - eexists. split; [reflexivity|]. cbn [metrics_of value]. rewrite Hz. reflexivity.
Qed.

End ValidRun.

Lemma valid_run_succeeds_witness :
  (main close5_env sample_args 0 1).1 = 0%Z.
Proof.
  destruct (valid_run_succeeds close5_env sample_args
              [("seed", YInt 42); ("window", YInt 3); ("version", YStr "v1")]
              42 3 "v1" (sample_table [1; 2; 3; 4; 5]%Z) (IntCol [1; 2; 3; 4; 5]%Z)
              close5
              eq_refl eq_refl eq_refl ltac:(lia) eq_refl ltac:(lia) eq_refl
              eq_refl eq_refl ltac:(simpl; lia) eq_refl eq_refl 0 1)
    as (m & -> & _).
  reflexivity.
Defined.

Lemma window_zero_succeeds_witness :
  exists st : State,
    main (sample_env (Ok (sample_config (YInt 0))) (Ok (sample_table [1; 2; 3]%Z)))
         sample_args 0 1 = (0%Z, st).
Proof.
  destruct (window_zero_succeeds
              (sample_env (Ok (sample_config (YInt 0))) (Ok (sample_table [1; 2; 3]%Z)))
              sample_args
              [("seed", YInt 42); ("window", YInt 0); ("version", YStr "v1")]
              42 0 "v1" (sample_table [1; 2; 3]%Z) (IntCol [1; 2; 3]%Z)
              [Val 1; Val 2; Val 3]
              eq_refl eq_refl eq_refl ltac:(lia) eq_refl ltac:(lia) eq_refl
              eq_refl eq_refl ltac:(simpl; lia) eq_refl eq_refl 0 1 eq_refl)
    as (_ & _ & _ & st & Hmain & _).
  exists st. exact Hmain.
Defined.

(** X21. A run can only end with status 0 when both files exist, the
    parsed config contains the three keys, its seed is accepted by numpy,
    its window is an integer in [0, 2**63), its version can be serialised,
    and the parsed table has rows and a close column. *)
Theorem success_requires (env : Env) (args : Args) (t0 t1 : Q) (st : State) :
  main env args t0 t1 = (0%Z, st) ->
  path_exists env (config args) = true /\
  path_exists env (input args) = true /\
  exists (cfg seed version : yaml) (z : Z) (df : DataFrame) (close : column),
    yaml_safe_load env (config args) = Ok cfg /\
    check_keys required_keys cfg = Ok () /\
    getitem cfg "seed" = Ok seed /\ np_random_seed seed = Ok () /\
    getitem cfg "window" = Ok (YInt z) /\ (0 <= z < 2 ^ 63)%Z /\
    getitem cfg "version" = Ok version /\ json_ok version = true /\
    read_csv env (input args) = Ok df /\
    nrows df <> 0 /\
    cols df !! "close" = Some close.
Proof.
  intros Hmain.
  destruct (main_success_inv _ _ _ _ _ Hmain)
    as (seed & window & version & df & w & xs & Hok & _).
  destruct Hok as (cfg & close & Hcfg & Hseed & Hwindow & Hversion & Hnp & Hdf
                   & Hclose & Hw & Hxs & Hjv).
  apply load_config_inv in Hcfg as (Hex & Hload & Hkeys).
  apply load_data_inv in Hdf as (Hin & Hread & Hempty & _).
  apply empty_false in Hempty as [Hrows _].
  apply rolling_window_inv in Hw as (z & -> & Hz & _).
  split; [exact Hex|]. split; [exact Hin|].
  exists cfg, seed, version, z, df, close.
  repeat (split; [assumption|]). assumption.
Qed.

Lemma success_requires_witness :
  path_exists close5_env (config sample_args) = true /\
  path_exists close5_env (input sample_args) = true.
Proof.
  destruct (success_requires close5_env sample_args 0 1
              (main close5_env sample_args 0 1).2 eq_refl) as (H1 & H2 & _).
  split; assumption.
Defined.

(** ** Columns other than close *)

Section OtherColumns.

Variables (env : Env) (args : Args) (df df' : DataFrame) (close : column).

Hypothesis input_parsed : read_csv env (input args) = Ok df.
Hypothesis same_rows : nrows df' = nrows df.
Hypothesis close_column : cols df !! "close" = Some close.
Hypothesis same_close : cols df' !! "close" = Some close.

Lemma load_data_with_table :
  load_data (with_table env (Ok df')) (input args) =
  match load_data env (input args) with
  | Ok _ => Ok df'
  | Raise e => Raise e
  end.
Proof.
  unfold load_data, with_table; cbn [path_exists read_csv].
  rewrite input_parsed.
  destruct (path_exists env (input args)); cbn [negb]; [|reflexivity].
  assert (Hne : forall d : DataFrame, is_Some (cols d !! "close") ->
                  bool_decide (cols d = ∅) = false).
  { intros d Hd. apply bool_decide_eq_false_2. intros Hc.
    rewrite Hc, lookup_empty in Hd. destruct Hd; discriminate. }
  unfold empty, has_column.
  rewrite !Hne by (rewrite ?close_column, ?same_close; eauto).
  rewrite same_rows. destruct (nrows df =? 0); cbn [orb]; [reflexivity|].
  rewrite !bool_decide_eq_true_2 by (rewrite ?close_column, ?same_close; eauto).
  reflexivity.
Qed.

Lemma try_block_with_table (t0 t1 : Q) :
  try_block (with_table env (Ok df')) args t0 t1 initial_state =
  try_block env args t0 t1 initial_state.
Proof.
  unfold try_block.
  change (load_config (with_table env (Ok df')) (config args))
    with (load_config env (config args)).
  pose proof load_data_with_table as Hld.
  destruct (load_config env (config args)) as [cfg|e] eqn:Hcfg;
    [|eval_run; reflexivity].
  destruct (getitem cfg "seed") as [seed|e] eqn:Hseed; [|eval_run; reflexivity].
  destruct (getitem cfg "window") as [window|e] eqn:Hwindow; [|eval_run; reflexivity].
  destruct (getitem cfg "version") as [version|e] eqn:Hversion; [|eval_run; reflexivity].
  destruct (np_random_seed seed) as [[]|e] eqn:Hnp; [|eval_run; reflexivity].
  destruct (load_data env (input args)) as [d|e] eqn:Hdf;
    [|eval_run; reflexivity].
  assert (d = df) as ->.
  { apply load_data_inv in Hdf as (_ & Hread & _). congruence. }
  assert (Hc : get_column df "close" = Ok close) by (apply get_column_lookup, close_column).
  assert (Hc' : get_column df' "close" = Ok close) by (apply get_column_lookup, same_close).
  assert (Hlen : len df' = len df) by exact same_rows.
  destruct (rolling_mean_column close window) as [rm|e] eqn:Hrm;
    [|eval_run; rewrite ?Hlen; reflexivity].
  destruct (where_gt close rm) as [sig|e] eqn:Hsig;
    [|eval_run; rewrite ?Hlen; reflexivity].
  eval_run. rewrite ?Hlen. unfold len. cbn [nrows set_column]. rewrite ?same_rows.
  destruct (mean_column sig) as [rate|e]; reflexivity.
Qed.

(** X22. Only the close column and the number of rows of the input
    matter: replacing the parsed table by one with the same number of rows
    and the same close column (other columns added, dropped or changed,
    among them columns named rolling_mean or signal) leaves the exit
    status, the log, the output file and standard output unchanged. *)
Theorem other_columns_ignored (t0 t1 : Q) :
  main (with_table env (Ok df')) args t0 t1 = main env args t0 t1.
Proof.
  unfold main. fold initial_state. rewrite try_block_with_table. reflexivity.
Qed.

End OtherColumns.

Lemma other_columns_ignored_witness :
  main (with_table close5_env
          (Ok (mkDF 5 (<["signal" := ObjCol ["a"; "b"; "c"; "d"; "e"]]>
                       {[ "close" := IntCol [1; 2; 3; 4; 5]%Z ]}))))
       sample_args 0 1 =
  main close5_env sample_args 0 1.
Proof.
  apply (other_columns_ignored close5_env sample_args
           (sample_table [1; 2; 3; 4; 5]%Z)
           (mkDF 5 (<["signal" := ObjCol ["a"; "b"; "c"; "d"; "e"]]>
                    {[ "close" := IntCol [1; 2; 3; 4; 5]%Z ]}))
           (IntCol [1; 2; 3; 4; 5]%Z)); reflexivity.
Defined.

(** ** Levels of the log lines *)

(** X23. The log has a line of level ERROR exactly when the job ends with
    status 1; it is then the last line, and every line before it is of
    level INFO.  A run with status 0 logs INFO lines only. *)
Theorem error_line_iff_failure (env : Env) (args : Args) (t0 t1 : Q) :
  ((main env args t0 t1).1 = 1%Z <->
   exists ev, ev ∈ log (main env args t0 t1).2 /\ level_of ev = ERROR) /\
  ((main env args t0 t1).1 = 1%Z ->
   exists (pre : list log_event) (msg : string),
     log (main env args t0 t1).2 = pre ++ [LogError msg] /\
     Forall (fun ev => level_of ev = INFO) pre).
Proof.
  destruct (main_cases env args)
    as [(e & st & _ & H) | (seed & window & version & df & w & xs & _ & H)].
  - destruct (H t0 t1) as [Htry ->].
    destruct (try_block_failure_shape _ _ _ _ _ _ Htry)
      as (seed & window & version & rows & k & Hlog & Hk & _).
    assert (Hinfo : Forall (fun ev => level_of ev = INFO) (log st)).
    { rewrite Hlog. apply Forall_take. repeat constructor. }
    cbn [fst snd error_state log]. split.
    + split; [|reflexivity]. intros _. exists (LogError (str e)).
      split; [apply elem_of_app; right; constructor | reflexivity].
    + intros _. exists (log st), (str e). split; [reflexivity | exact Hinfo].
  - rewrite (H t0 t1). cbn [fst snd]. split; [|discriminate].
    split; [discriminate|]. intros (ev & Hin & Hlevel). exfalso.
    unfold success_state in Hin. cbn [log] in Hin.
    repeat (apply elem_of_cons in Hin as [->|Hin]; [discriminate|]).
    inversion Hin.
Qed.

Lemma error_line_iff_failure_witness :
  exists ev, ev ∈ log (main no_input_env sample_args 0 1).2 /\ level_of ev = ERROR.
Proof.
  apply (proj1 (error_line_iff_failure no_input_env sample_args 0 1)). reflexivity.
Defined.
